(** * Portfolio API: the resource handlers of Backend/main.py

    The backend exposes six record tables through FastAPI handlers that
    talk to a relational store through a SQLAlchemy session.  This file
    embeds the schemas, the ORM classes, the session operations the
    handlers call and the handlers themselves, and then proves the
    lifecycle properties of the singleton resources (profile, education)
    and of the collection resources (experience, projects, skills,
    certifications).

    Conventions.
    - Request bodies are the validated pydantic objects: a handler only
      runs once validation has succeeded.  A validated [HttpUrl] is an
      object of its own, not a [str], and [model_dump()] hands it on as
      such.
    - At a commit the driver binds the attributes of the object.  It
      binds text, floats and lists of text, but not an [HttpUrl] object:
      the commit that has one to bind raises [ProgrammingError] and
      nothing reaches the store.  A float of minus zero reaches a Float
      column as plus zero.  What else the driver or the store may refuse
      (a NUL character in a text, a text too long for an index) is not
      modelled, so what is said of a write that returns is said on the
      condition that it returns.
    - Identifiers are integers drawn from a per-table sequence; the
      32-bit range of the column is not modelled.
    - A handler is a function from the store to an outcome and the next
      store.  An exception that the handler does not catch is an outcome
      of its own; FastAPI answers it with status 500. *)

From Stdlib Require Import ZArith String List Bool Lia FloatClass PrimFloat
  Permutation.
Import ListNotations.
Local Open Scope Z_scope.
Local Open Scope string_scope.
Local Open Scope list_scope.

(** ** Python values carried by a dumped request body *)

(** A validated [HttpUrl]: an object that wraps the text of the URL. *)
Inductive HttpUrl : Type :=
| Url (text : string).

Inductive value : Type :=
| VNone
| VInt (i : Z)
| VStr (s : string)
| VUrl (u : HttpUrl)
| VFloat (f : float)
| VList (l : list string).

(** What an attribute mapped to a String column holds in memory: the
    text loaded from the table, or whatever object was assigned to it. *)
Inductive text_attr : Type :=
| Str (s : string)
| UrlObject (u : HttpUrl).

(** Whether the driver can bind the attribute as a text parameter. *)
Definition binds (a : text_attr) : bool :=
  match a with
  | Str _ => true
  | UrlObject _ => false
  end.

(** What a Float column gives back for the float that was bound: the
    float itself, but plus zero for minus zero. *)
Definition column_float (f : float) : float :=
  match classify f with
  | NZero => 0%float
  | _ => f
  end.

(** ** Pydantic schemas *)

(** [class ProfileCreate(BaseModel)] *)
Module ProfileCreate.
Record t : Type := {
  name : string;
  phone : string;
  email : string;
  linkedin_url : HttpUrl;
  github_url : HttpUrl;
  portfolio_url : option HttpUrl
}.

(** [model_dump()]: the fields as a dict, in declaration order; the URL
    fields are dumped as the [HttpUrl] objects they are. *)
Definition model_dump (p : t) : list (string * value) :=
  [ ("name", VStr (name p));
    ("phone", VStr (phone p));
    ("email", VStr (email p));
    ("linkedin_url", VUrl (linkedin_url p));
    ("github_url", VUrl (github_url p));
    ("portfolio_url",
      match portfolio_url p with Some u => VUrl u | None => VNone end) ].
End ProfileCreate.

(** [class EducationCreate(BaseModel)] *)
Module EducationCreate.
Record t : Type := {
  institution : string;
  degree : string;
  cgpa : float;
  duration : string;
  location : string
}.

Definition model_dump (e : t) : list (string * value) :=
  [ ("institution", VStr (institution e));
    ("degree", VStr (degree e));
    ("cgpa", VFloat (cgpa e));
    ("duration", VStr (duration e));
    ("location", VStr (location e)) ].

(** The body as the store gives it back once written. *)
Definition as_read (e : t) : t :=
  {| institution := institution e;
     degree := degree e;
     cgpa := column_float (cgpa e);
     duration := duration e;
     location := location e |}.
End EducationCreate.

(** [class ExperienceCreate(BaseModel)] *)
Module ExperienceCreate.
Record t : Type := {
  company : string;
  role : string;
  duration : string;
  description : list string
}.
End ExperienceCreate.

(** [class ProjectCreate(BaseModel)] *)
Module ProjectCreate.
Record t : Type := {
  title : string;
  technologies : list string;
  description : list string
}.
End ProjectCreate.

(** [class SkillCategoryCreate(BaseModel)] *)
Module SkillCategoryCreate.
Record t : Type := {
  category_name : string;
  skills : list string
}.
End SkillCategoryCreate.

(** [class CertificationCreate(BaseModel)] *)
Module CertificationCreate.
Record t : Type := {
  issuer : string;
  title : string
}.
End CertificationCreate.

(** ** SQLAlchemy classes

    Each class is a record of its columns.  [new] is the constructor call
    on the keyword arguments of the dumped schema: it copies the dumped
    fields, and the primary key is the one the INSERT hands back.
    [setattr] assigns one column by name, the primary key included; an
    attribute that is not a column does not reach the table.  The
    attributes mapped to the URL columns of the profile take whatever
    is assigned to them, the text of a loaded row or the [HttpUrl]
    object of a dumped body; of the other columns a validated body only
    dumps values of the kind the column holds. *)

Module ProfileDB.
Record t : Type := {
  id : Z;
  name : string;
  phone : string;
  email : string;
  linkedin_url : text_attr;
  github_url : text_attr;
  portfolio_url : option text_attr
}.

Definition new (p : ProfileCreate.t) (i : Z) : t :=
  {| id := i;
     name := ProfileCreate.name p;
     phone := ProfileCreate.phone p;
     email := ProfileCreate.email p;
     linkedin_url := UrlObject (ProfileCreate.linkedin_url p);
     github_url := UrlObject (ProfileCreate.github_url p);
     portfolio_url := option_map UrlObject (ProfileCreate.portfolio_url p) |}.

(** Assigning to one of the URL attributes. *)
Definition set_url (o : t) (key : string) (a : option text_attr) : t :=
  match a with
  | Some x =>
      if key =? "linkedin_url" then
        {| id := id o; name := name o; phone := phone o; email := email o;
           linkedin_url := x; github_url := github_url o;
           portfolio_url := portfolio_url o |}
      else if key =? "github_url" then
        {| id := id o; name := name o; phone := phone o; email := email o;
           linkedin_url := linkedin_url o; github_url := x;
           portfolio_url := portfolio_url o |}
      else if key =? "portfolio_url" then
        {| id := id o; name := name o; phone := phone o; email := email o;
           linkedin_url := linkedin_url o; github_url := github_url o;
           portfolio_url := Some x |}
      else o
  | None =>
      if key =? "portfolio_url" then
        {| id := id o; name := name o; phone := phone o; email := email o;
           linkedin_url := linkedin_url o; github_url := github_url o;
           portfolio_url := None |}
      else o
  end.

Definition setattr (o : t) (key : string) (v : value) : t :=
  match v with
  | VStr s =>
      if key =? "name" then
        {| id := id o; name := s; phone := phone o; email := email o;
           linkedin_url := linkedin_url o; github_url := github_url o;
           portfolio_url := portfolio_url o |}
      else if key =? "phone" then
        {| id := id o; name := name o; phone := s; email := email o;
           linkedin_url := linkedin_url o; github_url := github_url o;
           portfolio_url := portfolio_url o |}
      else if key =? "email" then
        {| id := id o; name := name o; phone := phone o; email := s;
           linkedin_url := linkedin_url o; github_url := github_url o;
           portfolio_url := portfolio_url o |}
      else set_url o key (Some (Str s))
  | VUrl u => set_url o key (Some (UrlObject u))
  | VNone => set_url o key None
  | VInt i =>
      if key =? "id" then
        {| id := i; name := name o; phone := phone o; email := email o;
           linkedin_url := linkedin_url o; github_url := github_url o;
           portfolio_url := portfolio_url o |}
      else o
  | _ => o
  end.

(** The driver can bind every attribute of the object. *)
Definition adaptable (o : t) : bool :=
  binds (linkedin_url o) && binds (github_url o)
  && match portfolio_url o with
     | Some a => binds a
     | None => true
     end.
End ProfileDB.

Module EducationDB.
Record t : Type := {
  id : Z;
  institution : string;
  degree : string;
  cgpa : float;
  duration : string;
  location : string
}.

Definition new (e : EducationCreate.t) (i : Z) : t :=
  {| id := i;
     institution := EducationCreate.institution e;
     degree := EducationCreate.degree e;
     cgpa := EducationCreate.cgpa e;
     duration := EducationCreate.duration e;
     location := EducationCreate.location e |}.

Definition setattr (o : t) (key : string) (v : value) : t :=
  match v with
  | VStr s =>
      if key =? "institution" then
        {| id := id o; institution := s; degree := degree o;
           cgpa := cgpa o; duration := duration o; location := location o |}
      else if key =? "degree" then
        {| id := id o; institution := institution o; degree := s;
           cgpa := cgpa o; duration := duration o; location := location o |}
      else if key =? "duration" then
        {| id := id o; institution := institution o; degree := degree o;
           cgpa := cgpa o; duration := s; location := location o |}
      else if key =? "location" then
        {| id := id o; institution := institution o; degree := degree o;
           cgpa := cgpa o; duration := duration o; location := s |}
      else o
  | VFloat f =>
      if key =? "cgpa" then
        {| id := id o; institution := institution o; degree := degree o;
           cgpa := f; duration := duration o; location := location o |}
      else o
  | VInt i =>
      if key =? "id" then
        {| id := i; institution := institution o; degree := degree o;
           cgpa := cgpa o; duration := duration o; location := location o |}
      else o
  | _ => o
  end.

(** The row as the table holds it once the object is written. *)
Definition as_stored (o : t) : t :=
  {| id := id o; institution := institution o; degree := degree o;
     cgpa := column_float (cgpa o); duration := duration o;
     location := location o |}.
End EducationDB.

Module ExperienceDB.
Record t : Type := {
  id : Z;
  company : string;
  role : string;
  duration : string;
  description : list string
}.

Definition new (e : ExperienceCreate.t) (i : Z) : t :=
  {| id := i;
     company := ExperienceCreate.company e;
     role := ExperienceCreate.role e;
     duration := ExperienceCreate.duration e;
     description := ExperienceCreate.description e |}.
End ExperienceDB.

Module ProjectDB.
Record t : Type := {
  id : Z;
  title : string;
  technologies : list string;
  description : list string
}.

Definition new (p : ProjectCreate.t) (i : Z) : t :=
  {| id := i;
     title := ProjectCreate.title p;
     technologies := ProjectCreate.technologies p;
     description := ProjectCreate.description p |}.
End ProjectDB.

Module SkillCategoryDB.
Record t : Type := {
  id : Z;
  category_name : string;
  skills : list string
}.

Definition new (s : SkillCategoryCreate.t) (i : Z) : t :=
  {| id := i;
     category_name := SkillCategoryCreate.category_name s;
     skills := SkillCategoryCreate.skills s |}.
End SkillCategoryDB.

Module CertificationDB.
Record t : Type := {
  id : Z;
  issuer : string;
  title : string
}.

Definition new (c : CertificationCreate.t) (i : Z) : t :=
  {| id := i;
     issuer := CertificationCreate.issuer c;
     title := CertificationCreate.title c |}.
End CertificationDB.

(** ** Response schemas

    [class Profile(ProfileCreate)] adds [id] to the create shape;
    [from_attributes] fills it from the attributes of an ORM object.  A
    URL attribute is validated from the text the table gave, or taken as
    the [HttpUrl] object it is. *)

Definition url_of (a : text_attr) : HttpUrl :=
  match a with
  | Str s => Url s
  | UrlObject u => u
  end.

Module Profile.
Record t : Type := { base : ProfileCreate.t; id : Z }.

Definition model_validate (o : ProfileDB.t) : t :=
  {| base := {| ProfileCreate.name := ProfileDB.name o;
                ProfileCreate.phone := ProfileDB.phone o;
                ProfileCreate.email := ProfileDB.email o;
                ProfileCreate.linkedin_url := url_of (ProfileDB.linkedin_url o);
                ProfileCreate.github_url := url_of (ProfileDB.github_url o);
                ProfileCreate.portfolio_url :=
                  option_map url_of (ProfileDB.portfolio_url o) |};
     id := ProfileDB.id o |}.
End Profile.

Module Education.
Record t : Type := { base : EducationCreate.t; id : Z }.

Definition model_validate (o : EducationDB.t) : t :=
  {| base := {| EducationCreate.institution := EducationDB.institution o;
                EducationCreate.degree := EducationDB.degree o;
                EducationCreate.cgpa := EducationDB.cgpa o;
                EducationCreate.duration := EducationDB.duration o;
                EducationCreate.location := EducationDB.location o |};
     id := EducationDB.id o |}.
End Education.

Module Experience.
Record t : Type := { base : ExperienceCreate.t; id : Z }.

Definition model_validate (o : ExperienceDB.t) : t :=
  {| base := {| ExperienceCreate.company := ExperienceDB.company o;
                ExperienceCreate.role := ExperienceDB.role o;
                ExperienceCreate.duration := ExperienceDB.duration o;
                ExperienceCreate.description := ExperienceDB.description o |};
     id := ExperienceDB.id o |}.
End Experience.

Module Project.
Record t : Type := { base : ProjectCreate.t; id : Z }.

Definition model_validate (o : ProjectDB.t) : t :=
  {| base := {| ProjectCreate.title := ProjectDB.title o;
                ProjectCreate.technologies := ProjectDB.technologies o;
                ProjectCreate.description := ProjectDB.description o |};
     id := ProjectDB.id o |}.
End Project.

Module SkillCategory.
Record t : Type := { base : SkillCategoryCreate.t; id : Z }.

Definition model_validate (o : SkillCategoryDB.t) : t :=
  {| base := {| SkillCategoryCreate.category_name :=
                  SkillCategoryDB.category_name o;
                SkillCategoryCreate.skills := SkillCategoryDB.skills o |};
     id := SkillCategoryDB.id o |}.
End SkillCategory.

Module Certification.
Record t : Type := { base : CertificationCreate.t; id : Z }.

Definition model_validate (o : CertificationDB.t) : t :=
  {| base := {| CertificationCreate.issuer := CertificationDB.issuer o;
                CertificationCreate.title := CertificationDB.title o |};
     id := CertificationDB.id o |}.
End Certification.

(** ** The relational store *)

(** A table: its rows in the order a scan returns them, and the next
    value of the identifier sequence of its primary key. *)
Record Table (R : Type) : Type := {
  rows : list R;
  next_id : Z
}.
Arguments rows {R} _.
Arguments next_id {R} _.

(** One field per [__tablename__]. *)
Record Store : Type := {
  profile : Table ProfileDB.t;
  education : Table EducationDB.t;
  experience : Table ExperienceDB.t;
  projects : Table ProjectDB.t;
  skill_categories : Table SkillCategoryDB.t;
  certifications : Table CertificationDB.t
}.

Definition empty_table {R : Type} : Table R := {| rows := []; next_id := 1 |}.

(** The store after startup on a fresh database: every table created,
    none populated. *)
Definition empty_store : Store :=
  {| profile := empty_table; education := empty_table;
     experience := empty_table; projects := empty_table;
     skill_categories := empty_table; certifications := empty_table |}.

(** What the generic helpers need to know of a [model_db] class and of
    the schema it is built from: the constructor, the primary key, the
    column declared [unique=True] (if any), whether the driver can bind
    the attributes of an object, the row the table holds once the object
    is written, and where its table lives. *)
Record Model (C R : Type) : Type := {
  construct : C -> Z -> R;
  pk : R -> Z;
  unique_col : R -> option string;
  adaptable : R -> bool;
  as_stored : R -> R;
  table : Store -> Table R;
  with_table : Table R -> Store -> Store
}.
Arguments construct {C R} _ _ _.
Arguments adaptable {C R} _ _.
Arguments as_stored {C R} _ _.
Arguments pk {C R} _ _.
Arguments unique_col {C R} _ _.
Arguments table {C R} _ _.
Arguments with_table {C R} _ _ _.

Section Persistence.
Context {R : Type}.
Variable key : R -> Z.
Variable uniq : R -> option string.

(** Modelled from the spec: [find_first(table)], the first row of a scan
    or nothing; the database engine behind the session is not part of
    the sources. *)
Definition find_first (t : Table R) : option R := hd_error (rows t).

(** Modelled from the spec: [find_all(table)], every row, in insertion
    order (the scan carries no sort key). *)
Definition find_all (t : Table R) : list R := rows t.

(** Modelled from the spec: the first row whose identifier is [i]. *)
Definition find_by_id (i : Z) (t : Table R) : option R :=
  find (fun r => (key r =? i)%Z) (rows t).

(** Modelled from the spec: two rows clash on the unique column when both
    have a value there and the values are equal. *)
Definition same_unique (a b : option string) : bool :=
  match a, b with
  | Some x, Some y => (x =? y)%string
  | _, _ => false
  end.

(** Modelled from the spec: the uniqueness invariants a write is checked
    against, identity uniqueness and the column declared unique. *)
Definition violates (r : R) (others : list R) : bool :=
  existsb (fun o => (key o =? key r)%Z || same_unique (uniq o) (uniq r))
          others.

(** Modelled from the spec: [insert(table, record)], which stores the
    record under the next identifier at the end of the table, or fails
    with a constraint violation ([None]) and stores nothing.  The
    identifier sequence advances on every attempt. *)
Definition insert (mk : Z -> R) (t : Table R) : option R * Table R :=
  let r := mk (next_id t) in
  if violates r (rows t)
  then (None, {| rows := rows t; next_id := next_id t + 1 |})
  else (Some r, {| rows := rows t ++ [r]; next_id := next_id t + 1 |}).

(** Modelled from the spec: the row [o] once the row identified by [i]
    has been overwritten with [r]. *)
Definition overwrite (i : Z) (r : R) (o : R) : R :=
  if (key o =? i)%Z then r else o.

(** Modelled from the spec: [update(table, record)], the full overwrite
    of the row identified by [i], checked against the other rows; the
    row keeps its place. *)
Definition update (i : Z) (r : R) (t : Table R) : option (Table R) :=
  if violates r (filter (fun o => negb (key o =? i)%Z) (rows t))
  then None
  else Some {| rows := map (overwrite i r) (rows t);
               next_id := next_id t |}.

(** Modelled from the spec: [delete_by_id(table, id)], which removes the
    row with that identifier and tells whether one existed. *)
Definition delete_by_id (i : Z) (t : Table R) : bool * Table R :=
  (existsb (fun o => (key o =? i)%Z) (rows t),
   {| rows := filter (fun o => negb (key o =? i)%Z) (rows t);
      next_id := next_id t |}).
End Persistence.

(** ** Handlers as store transformers *)

Inductive exn : Type :=
| HTTPException (status_code : Z) (detail : string)
| ProgrammingError
| IntegrityError
| InvalidRequestError.

Inductive outcome (A : Type) : Type :=
| Return (a : A)
| Raise (e : exn).
Arguments Return {A} _.
Arguments Raise {A} _.

Definition Handler (A : Type) : Type := Store -> outcome A * Store.

Definition ret {A : Type} (a : A) : Handler A := fun db => (Return a, db).

Definition raise {A : Type} (e : exn) : Handler A := fun db => (Raise e, db).

Definition bind {A B : Type} (m : Handler A) (k : A -> Handler B) : Handler B :=
  fun db =>
    match m db with
    | (Return a, db') => k a db'
    | (Raise e, db') => (Raise e, db')
    end.

Declare Scope handler_scope.
Delimit Scope handler_scope with handler.
Notation "x <- m ;; k" := (bind m (fun x => k))
  (at level 61, m at next level, right associativity) : handler_scope.
Notation "m ;;; k" := (bind m (fun _ => k))
  (at level 61, right associativity) : handler_scope.
Local Open Scope handler_scope.

(** The status line of the HTTP answer: 200 for a returned value, the
    code of an [HTTPException], 500 for any other exception. *)
Definition status_of {A : Type} (o : outcome A) : Z :=
  match o with
  | Return _ => 200
  | Raise (HTTPException c _) => c
  | Raise _ => 500
  end.

(** ** Session operations used by the handlers *)

Section Session.
Context {C R : Type}.
Variable model_db : Model C R.

(** [db.query(model_db).first()] *)
Definition query_first : Handler (option R) :=
  fun db => (Return (find_first (table model_db db)), db).

(** [db.query(model_db).all()] *)
Definition query_all : Handler (list R) :=
  fun db => (Return (find_all (table model_db db)), db).

(** [db.query(model_db).filter(model_db.id == item_id).first()] *)
Definition query_by_id (item_id : Z) : Handler (option R) :=
  fun db => (Return (find_by_id (pk model_db) item_id (table model_db db)), db).

(** [db.add(obj); db.commit()] for a new object: the INSERT.  The
    object has no key yet; the driver binds its attributes, or fails
    before the statement is sent. *)
Definition add_commit (obj : Z -> R) : Handler R :=
  fun db =>
    if adaptable model_db (obj (next_id (table model_db db))) then
      match insert (pk model_db) (unique_col model_db)
                   (fun i => as_stored model_db (obj i))
                   (table model_db db) with
      | (Some r, t) => (Return r, with_table model_db t db)
      | (None, t) => (Raise IntegrityError, with_table model_db t db)
      end
    else (Raise ProgrammingError, db).

(** [db.commit()] with a loaded object [old] whose attributes now read
    [obj]: the UPDATE of the row with the primary key of [old].  An
    attribute that was assigned an object the driver cannot bind differs
    from the text that was loaded, so it is among those to bind. *)
Definition commit_changes (old obj : R) : Handler unit :=
  fun db =>
    if adaptable model_db obj then
      match update (pk model_db) (unique_col model_db) (pk model_db old)
                   (as_stored model_db obj) (table model_db db) with
      | Some t => (Return tt, with_table model_db t db)
      | None => (Raise IntegrityError, db)
      end
    else (Raise ProgrammingError, db).

(** [db.delete(obj); db.commit()]: the DELETE by primary key. *)
Definition delete_commit (obj : R) : Handler unit :=
  fun db =>
    (Return tt,
     with_table model_db
       (snd (delete_by_id (pk model_db) (pk model_db obj) (table model_db db)))
       db).

(** [db.refresh(obj)]: reload the attributes by primary key. *)
Definition refresh (obj : R) : Handler R :=
  fun db =>
    match find_by_id (pk model_db) (pk model_db obj) (table model_db db) with
    | Some r => (Return r, db)
    | None => (Raise InvalidRequestError, db)
    end.
End Session.

(** ** The six [model_db] classes as table descriptors *)

Definition ProfileDB_model : Model ProfileCreate.t ProfileDB.t :=
  {| construct := ProfileDB.new;
     pk := ProfileDB.id;
     unique_col := fun r => Some (ProfileDB.email r);
     adaptable := ProfileDB.adaptable;
     as_stored := fun r => r;
     table := profile;
     with_table := fun t db =>
       {| profile := t; education := education db;
          experience := experience db; projects := projects db;
          skill_categories := skill_categories db;
          certifications := certifications db |} |}.

Definition EducationDB_model : Model EducationCreate.t EducationDB.t :=
  {| construct := EducationDB.new;
     pk := EducationDB.id;
     unique_col := fun _ => None;
     adaptable := fun _ => true;
     as_stored := EducationDB.as_stored;
     table := education;
     with_table := fun t db =>
       {| profile := profile db; education := t;
          experience := experience db; projects := projects db;
          skill_categories := skill_categories db;
          certifications := certifications db |} |}.

Definition ExperienceDB_model : Model ExperienceCreate.t ExperienceDB.t :=
  {| construct := ExperienceDB.new;
     pk := ExperienceDB.id;
     unique_col := fun _ => None;
     adaptable := fun _ => true;
     as_stored := fun r => r;
     table := experience;
     with_table := fun t db =>
       {| profile := profile db; education := education db;
          experience := t; projects := projects db;
          skill_categories := skill_categories db;
          certifications := certifications db |} |}.

Definition ProjectDB_model : Model ProjectCreate.t ProjectDB.t :=
  {| construct := ProjectDB.new;
     pk := ProjectDB.id;
     unique_col := fun _ => None;
     adaptable := fun _ => true;
     as_stored := fun r => r;
     table := projects;
     with_table := fun t db =>
       {| profile := profile db; education := education db;
          experience := experience db; projects := t;
          skill_categories := skill_categories db;
          certifications := certifications db |} |}.

Definition SkillCategoryDB_model : Model SkillCategoryCreate.t SkillCategoryDB.t :=
  {| construct := SkillCategoryDB.new;
     pk := SkillCategoryDB.id;
     unique_col := fun r => Some (SkillCategoryDB.category_name r);
     adaptable := fun _ => true;
     as_stored := fun r => r;
     table := skill_categories;
     with_table := fun t db =>
       {| profile := profile db; education := education db;
          experience := experience db; projects := projects db;
          skill_categories := t;
          certifications := certifications db |} |}.

Definition CertificationDB_model : Model CertificationCreate.t CertificationDB.t :=
  {| construct := CertificationDB.new;
     pk := CertificationDB.id;
     unique_col := fun _ => None;
     adaptable := fun _ => true;
     as_stored := fun r => r;
     table := certifications;
     with_table := fun t db =>
       {| profile := profile db; education := education db;
          experience := experience db; projects := projects db;
          skill_categories := skill_categories db;
          certifications := t |} |}.

(** ** Profile endpoints (singleton) *)

Definition create_profile (body : ProfileCreate.t) : Handler ProfileDB.t :=
  existing <- query_first ProfileDB_model ;;
  match existing with
  | Some _ =>
      raise (HTTPException 400 "Profile already exists. Use PUT to update.")
  | None =>
      db_profile <- add_commit ProfileDB_model (ProfileDB.new body) ;;
      refresh ProfileDB_model db_profile
  end.

Definition get_profile : Handler (option ProfileDB.t) :=
  query_first ProfileDB_model.

Definition update_profile (body : ProfileCreate.t) : Handler ProfileDB.t :=
  loaded <- query_first ProfileDB_model ;;
  match loaded with
  | None =>
      raise (HTTPException 404 "Profile not found. Use POST to create one.")
  | Some db_profile =>
      let assigned :=
        fold_left (fun o kv => ProfileDB.setattr o (fst kv) (snd kv))
                  (ProfileCreate.model_dump body) db_profile in
      commit_changes ProfileDB_model db_profile assigned ;;;
      refresh ProfileDB_model assigned
  end.

(** ** Education endpoints (singleton) *)

Definition create_education (body : EducationCreate.t) : Handler EducationDB.t :=
  existing <- query_first EducationDB_model ;;
  match existing with
  | Some _ =>
      raise (HTTPException 400
               "Education entry already exists. Use PUT to update.")
  | None =>
      db_education <- add_commit EducationDB_model (EducationDB.new body) ;;
      refresh EducationDB_model db_education
  end.

Definition get_education : Handler (option EducationDB.t) :=
  query_first EducationDB_model.

Definition update_education (body : EducationCreate.t) : Handler EducationDB.t :=
  loaded <- query_first EducationDB_model ;;
  match loaded with
  | None =>
      raise (HTTPException 404 "Education not found. Use POST to create one.")
  | Some db_education =>
      let assigned :=
        fold_left (fun o kv => EducationDB.setattr o (fst kv) (snd kv))
                  (EducationCreate.model_dump body) db_education in
      commit_changes EducationDB_model db_education assigned ;;;
      refresh EducationDB_model assigned
  end.

(** ** Generic CRUD functions for list-based items *)

Section Generic.
Context {C R : Type}.
Variable model_db : Model C R.

Definition create_item (schema_create : C) : Handler R :=
  db_item <- add_commit model_db (construct model_db schema_create) ;;
  refresh model_db db_item.

Definition get_items : Handler (list R) := query_all model_db.

Definition delete_item (item_id : Z) : Handler string :=
  found <- query_by_id model_db item_id ;;
  match found with
  | None => raise (HTTPException 404 "Item not found")
  | Some db_item =>
      delete_commit model_db db_item ;;;
      ret "Item deleted successfully"
  end.
End Generic.

(** ** Collection endpoints *)

Definition add_experience (body : ExperienceCreate.t) := create_item ExperienceDB_model body.
Definition get_all_experiences := get_items ExperienceDB_model.
Definition delete_experience (exp_id : Z) := delete_item ExperienceDB_model exp_id.

Definition add_project (body : ProjectCreate.t) := create_item ProjectDB_model body.
Definition get_all_projects := get_items ProjectDB_model.
Definition delete_project (proj_id : Z) := delete_item ProjectDB_model proj_id.

Definition add_skill_category (body : SkillCategoryCreate.t) := create_item SkillCategoryDB_model body.
Definition get_all_skill_categories := get_items SkillCategoryDB_model.
Definition delete_skill_category (skill_id : Z) := delete_item SkillCategoryDB_model skill_id.

Definition add_certification (body : CertificationCreate.t) := create_item CertificationDB_model body.
Definition get_all_certifications := get_items CertificationDB_model.
Definition delete_certification (cert_id : Z) := delete_item CertificationDB_model cert_id.

(** ** The HTTP surface *)

Inductive Request : Type :=
| GET_root
| POST_profile (body : ProfileCreate.t)
| GET_profile
| PUT_profile (body : ProfileCreate.t)
| POST_education (body : EducationCreate.t)
| GET_education
| PUT_education (body : EducationCreate.t)
| POST_experience (body : ExperienceCreate.t)
| GET_experience
| DELETE_experience (exp_id : Z)
| POST_projects (body : ProjectCreate.t)
| GET_projects
| DELETE_projects (proj_id : Z)
| POST_skills (body : SkillCategoryCreate.t)
| GET_skills
| DELETE_skills (skill_id : Z)
| POST_certifications (body : CertificationCreate.t)
| GET_certifications
| DELETE_certifications (cert_id : Z).

(** The body of an answer, after the [response_model] of the route. *)
Inductive Content : Type :=
| JMessage (message : string)
| JNull
| JProfile (p : Profile.t)
| JEducation (e : Education.t)
| JExperience (e : Experience.t)
| JProject (p : Project.t)
| JSkillCategory (s : SkillCategory.t)
| JCertification (c : Certification.t)
| JExperiences (l : list Experience.t)
| JProjects (l : list Project.t)
| JSkillCategories (l : list SkillCategory.t)
| JCertifications (l : list Certification.t).

Definition respond {A : Type} (f : A -> Content) (h : Handler A)
  : Handler Content :=
  a <- h ;; ret (f a).

Definition read_root : Handler string :=
  ret "Welcome to the Portfolio API. Go to /docs to manage data.".

Definition handle (req : Request) : Handler Content :=
  match req with
  | GET_root => respond JMessage read_root
  | POST_profile body =>
      respond (fun o => JProfile (Profile.model_validate o)) (create_profile body)
  | GET_profile =>
      respond (fun o => match o with
                        | Some r => JProfile (Profile.model_validate r)
                        | None => JNull
                        end) get_profile
  | PUT_profile body =>
      respond (fun o => JProfile (Profile.model_validate o)) (update_profile body)
  | POST_education body =>
      respond (fun o => JEducation (Education.model_validate o))
              (create_education body)
  | GET_education =>
      respond (fun o => match o with
                        | Some r => JEducation (Education.model_validate r)
                        | None => JNull
                        end) get_education
  | PUT_education body =>
      respond (fun o => JEducation (Education.model_validate o))
              (update_education body)
  | POST_experience body =>
      respond (fun o => JExperience (Experience.model_validate o))
              (add_experience body)
  | GET_experience =>
      respond (fun l => JExperiences (map Experience.model_validate l))
              get_all_experiences
  | DELETE_experience exp_id => respond JMessage (delete_experience exp_id)
  | POST_projects body =>
      respond (fun o => JProject (Project.model_validate o)) (add_project body)
  | GET_projects =>
      respond (fun l => JProjects (map Project.model_validate l)) get_all_projects
  | DELETE_projects proj_id => respond JMessage (delete_project proj_id)
  | POST_skills body =>
      respond (fun o => JSkillCategory (SkillCategory.model_validate o))
              (add_skill_category body)
  | GET_skills =>
      respond (fun l => JSkillCategories (map SkillCategory.model_validate l))
              get_all_skill_categories
  | DELETE_skills skill_id => respond JMessage (delete_skill_category skill_id)
  | POST_certifications body =>
      respond (fun o => JCertification (Certification.model_validate o))
              (add_certification body)
  | GET_certifications =>
      respond (fun l => JCertifications (map Certification.model_validate l))
              get_all_certifications
  | DELETE_certifications cert_id =>
      respond JMessage (delete_certification cert_id)
  end.

(** The store after a sequence of requests, served one after the other. *)
Definition run (reqs : list Request) (db : Store) : Store :=
  fold_left (fun s req => snd (handle req s)) reqs db.

(** The stores the API can reach from a fresh database. *)
Definition reachable (db : Store) : Prop :=
  exists reqs, db = run reqs empty_store.

(** ** Vocabulary of the statements *)

(** A singleton resource is present when its table has a first row. *)
Definition present {C R : Type} (m : Model C R) (db : Store) : bool :=
  match find_first (table m db) with
  | Some _ => true
  | None => false
  end.

(** A row with identifier [i] is stored in the table of [m]. *)
Definition stored {C R : Type} (m : Model C R) (i : Z) (db : Store) : bool :=
  existsb (fun r => (pk m r =? i)%Z) (rows (table m db)).

(** A descriptor reads back the table it writes, writes nothing else
    than that table, builds rows that carry the key handed to it, and
    has only attributes that the driver binds and that the table holds
    as they are. *)
Definition lawful {C R : Type} (m : Model C R) : Prop :=
  (forall t db, table m (with_table m t db) = t) /\
  (forall db, with_table m (table m db) db = db) /\
  (forall c i, pk m (construct m c i) = i) /\
  (forall r, adaptable m r = true) /\
  (forall r, as_stored m r = r).

(** The four list-style resources. *)
Inductive collection : forall {C R : Type}, Model C R -> Prop :=
| collection_experience : collection ExperienceDB_model
| collection_projects : collection ProjectDB_model
| collection_skills : collection SkillCategoryDB_model
| collection_certifications : collection CertificationDB_model.

(** Identifiers already handed out lie below the sequence. *)
Definition keys_below {C R : Type} (m : Model C R) (db : Store) : Prop :=
  Forall (fun r => pk m r < next_id (table m db)) (rows (table m db)).

(** A table is well keyed when, in addition, no two rows share an
    identifier. *)
Definition well_keyed {C R : Type} (m : Model C R) (db : Store) : Prop :=
  keys_below m db /\ NoDup (map (pk m) (rows (table m db))).

(** A sequence of creates and deletes on one collection. *)
Inductive item_op (C : Type) : Type :=
| Create (schema_create : C)
| Delete (item_id : Z).
Arguments Create {C} _.
Arguments Delete {C} _.

Section History.
Context {C R : Type}.
Variable model_db : Model C R.

Definition item_step (db : Store) (op : item_op C) : Store :=
  match op with
  | Create c => snd (create_item model_db c db)
  | Delete i => snd (delete_item model_db i db)
  end.

Definition run_items (ops : list (item_op C)) (db : Store) : Store :=
  fold_left item_step ops db.

(** The rows the successful creates of [ops] answered with, oldest
    first. *)
Fixpoint created (ops : list (item_op C)) (db : Store) : list R :=
  match ops with
  | [] => []
  | op :: rest =>
      match op with
      | Create c =>
          match fst (create_item model_db c db) with
          | Return r => r :: created rest (item_step db op)
          | Raise _ => created rest (item_step db op)
          end
      | Delete _ => created rest (item_step db op)
      end
  end.

(** The identifiers the successful deletes of [ops] were called with. *)
Fixpoint deleted (ops : list (item_op C)) (db : Store) : list Z :=
  match ops with
  | [] => []
  | op :: rest =>
      match op with
      | Delete i =>
          match fst (delete_item model_db i db) with
          | Return _ => i :: deleted rest (item_step db op)
          | Raise _ => deleted rest (item_step db op)
          end
      | Create _ => deleted rest (item_step db op)
      end
  end.

(** The surviving rows in creation order: what was there, then what was
    created, without the rows whose identifier was deleted. *)
Definition survivors (ops : list (item_op C)) (db : Store) : list R :=
  filter (fun r => negb (existsb (Z.eqb (pk model_db r)) (deleted ops db)))
         (rows (table model_db db) ++ created ops db).
End History.

(** ** Sample data *)

Definition sample_profile : ProfileCreate.t :=
  {| ProfileCreate.name := "A";
     ProfileCreate.phone := "1";
     ProfileCreate.email := "a@x.com";
     ProfileCreate.linkedin_url := Url "https://li.com/a";
     ProfileCreate.github_url := Url "https://gh.com/a";
     ProfileCreate.portfolio_url := None |}.

Definition other_profile : ProfileCreate.t :=
  {| ProfileCreate.name := "B";
     ProfileCreate.phone := "2";
     ProfileCreate.email := "b@x.com";
     ProfileCreate.linkedin_url := Url "https://li.com/b";
     ProfileCreate.github_url := Url "https://gh.com/b";
     ProfileCreate.portfolio_url := Some (Url "https://b.dev/") |}.

Definition sample_education : EducationCreate.t :=
  {| EducationCreate.institution := "IIT";
     EducationCreate.degree := "BTech";
     EducationCreate.cgpa := 8.5%float;
     EducationCreate.duration := "2021-2025";
     EducationCreate.location := "Kolkata" |}.

Definition other_education : EducationCreate.t :=
  {| EducationCreate.institution := "MIT";
     EducationCreate.degree := "MS";
     EducationCreate.cgpa := 9.25%float;
     EducationCreate.duration := "2025-2027";
     EducationCreate.location := "Cambridge" |}.

Definition sample_experience : ExperienceCreate.t :=
  {| ExperienceCreate.company := "Acme";
     ExperienceCreate.role := "Intern";
     ExperienceCreate.duration := "2024";
     ExperienceCreate.description := ["built things"; "fixed things"] |}.

Definition sample_project : ProjectCreate.t :=
  {| ProjectCreate.title := "P1";
     ProjectCreate.technologies := ["X"];
     ProjectCreate.description := ["d"] |}.

Definition sample_skill : SkillCategoryCreate.t :=
  {| SkillCategoryCreate.category_name := "Languages";
     SkillCategoryCreate.skills := ["Python"] |}.

(** The same category name with another list of skills. *)
Definition duplicate_skill : SkillCategoryCreate.t :=
  {| SkillCategoryCreate.category_name := "Languages";
     SkillCategoryCreate.skills := ["Go"; "Rust"] |}.

Definition sample_certification : CertificationCreate.t :=
  {| CertificationCreate.issuer := "Coursera";
     CertificationCreate.title := "ML" |}.

(** An education body whose [cgpa] is minus zero. *)
Definition minus_zero_education : EducationCreate.t :=
  {| EducationCreate.institution := "IIT";
     EducationCreate.degree := "BTech";
     EducationCreate.cgpa := (-0)%float;
     EducationCreate.duration := "2021-2025";
     EducationCreate.location := "Kolkata" |}.

(** The store after one POST to every resource. *)
Definition populated_store : Store :=
  run [ POST_profile sample_profile; POST_education sample_education;
        POST_experience sample_experience; POST_projects sample_project;
        POST_skills sample_skill; POST_certifications sample_certification ]
      empty_store.

(** A profile row as the table holds one: every attribute is text. *)
Definition stored_profile : ProfileDB.t :=
  {| ProfileDB.id := 1;
     ProfileDB.name := "A";
     ProfileDB.phone := "1";
     ProfileDB.email := "a@x.com";
     ProfileDB.linkedin_url := Str "https://li.com/a";
     ProfileDB.github_url := Str "https://gh.com/a";
     ProfileDB.portfolio_url := None |}.

(** The populated store of a database whose profile row was inserted
    into the table directly. *)
Definition seeded_store : Store :=
  with_table ProfileDB_model
    {| rows := [stored_profile]; next_id := 2 |} populated_store.

(** ** Routes: method, resource and how an answer ends *)




(** The resource a route belongs to, by its path; the root has none. *)
Inductive Resource : Type :=
| Profiles | Educations | Experiences | Projects | Skills | Certifications.

Definition resource_of (req : Request) : option Resource :=
  match req with
  | GET_root => None
  | POST_profile _ | GET_profile | PUT_profile _ => Some Profiles
  | POST_education _ | GET_education | PUT_education _ => Some Educations
  | POST_experience _ | GET_experience | DELETE_experience _ =>
      Some Experiences
  | POST_projects _ | GET_projects | DELETE_projects _ => Some Projects
  | POST_skills _ | GET_skills | DELETE_skills _ => Some Skills
  | POST_certifications _ | GET_certifications | DELETE_certifications _ =>
      Some Certifications
  end.

(** Two stores agree on the table of a resource. *)
Definition same_table (k : Resource) (a b : Store) : Prop :=
  match k with
  | Profiles => profile a = profile b
  | Educations => education a = education b
  | Experiences => experience a = experience b
  | Projects => projects a = projects b
  | Skills => skill_categories a = skill_categories b
  | Certifications => certifications a = certifications b
  end.

(** The exception an outcome carries, if any. *)
Definition raised {A : Type} (o : outcome A) : option exn :=
  match o with
  | Return _ => None
  | Raise e => Some e
  end.

(** * Properties *)

(** ** Facts about tables *)

Section TableFacts.
Context {R : Type}.
Variable key : R -> Z.
Variable uniq : R -> option string.

Lemma violates_false_key (r : R) (l : list R) :
  violates key uniq r l = false ->
  forall o, In o l -> (key o =? key r)%Z = false.
Proof.
  unfold violates. intros H o Ho.
  destruct (key o =? key r)%Z eqn:E; [|reflexivity].
  assert (X : existsb (fun o => (key o =? key r)%Z
                          || same_unique (uniq o) (uniq r)) l = true).
  { apply existsb_exists. exists o. split; [exact Ho|]. now rewrite E. }
  congruence.
Qed.


Lemma find_by_id_appended (r : R) (l : list R) (n : Z) :
  violates key uniq r l = false ->
  find_by_id key (key r) {| rows := l ++ [r]; next_id := n |} = Some r.
Proof.
  intros H. unfold find_by_id. simpl.
  pose proof (violates_false_key r l H) as K.
  induction l as [|a l IH]; simpl.
  - now rewrite Z.eqb_refl.
  - rewrite (K a (or_introl eq_refl)). apply IH.
    + unfold violates in *. simpl in H.
      apply orb_false_iff in H. tauto.
    + intros o Ho. apply K. now right.
Qed.

Lemma insert_some (mk : Z -> R) (t t' : Table R) (r : R) :
  insert key uniq mk t = (Some r, t') ->
  r = mk (next_id t) /\
  violates key uniq r (rows t) = false /\
  t' = {| rows := rows t ++ [r]; next_id := next_id t + 1 |}.
Proof.
  unfold insert. destruct (violates key uniq (mk (next_id t)) (rows t)) eqn:V;
    intros E; inversion E; subst; auto.
Qed.



Lemma update_rows_length (i : Z) (r : R) (t t' : Table R) :
  update key uniq i r t = Some t' -> length (rows t') = length (rows t).
Proof.
  unfold update. destruct (violates _ _ _ _); intros E; inversion E; simpl.
  apply length_map.
Qed.
End TableFacts.



Lemma collection_lawful {C R : Type} (m : Model C R) : collection m -> lawful m.
Proof. intros []; repeat split; intros; try (destruct db); reflexivity. Qed.

(** ** Singleton resources: what each handler does to the store *)

Lemma present_rows {C R : Type} (m : Model C R) (db : Store) :
  present m db = false <-> rows (table m db) = [].
Proof.
  unfold present, find_first.
  destruct (rows (table m db)); simpl; split; congruence.
Qed.

(** The INSERT of a profile binds [HttpUrl] objects: the commit fails
    and the store is as it was. *)
Lemma create_profile_absent (body : ProfileCreate.t) (db : Store) :
  present ProfileDB_model db = false ->
  create_profile body db = (Raise ProgrammingError, db).
Proof.
  intros H. apply present_rows in H. simpl in H.
  unfold create_profile, bind, query_first, find_first, add_commit.
  simpl. rewrite H. reflexivity.
Qed.

Lemma create_profile_present (body : ProfileCreate.t) (db : Store) :
  present ProfileDB_model db = true ->
  create_profile body db =
    (Raise (HTTPException 400 "Profile already exists. Use PUT to update."),
     db).
Proof.
  unfold present, create_profile, bind, query_first. simpl.
  destruct (find_first (profile db)); [reflexivity|discriminate].
Qed.

Lemma create_education_absent (body : EducationCreate.t) (db : Store) :
  present EducationDB_model db = false ->
  let r := EducationDB.as_stored
             (EducationDB.new body (next_id (education db))) in
  create_education body db =
    (Return r,
     with_table EducationDB_model
       {| rows := [r]; next_id := next_id (education db) + 1 |} db).
Proof.
  intros H. apply present_rows in H. simpl in H.
  unfold create_education, bind, query_first, find_first, add_commit, insert,
    refresh, find_by_id.
  simpl. repeat (rewrite H; simpl). rewrite Z.eqb_refl. reflexivity.
Qed.

Lemma create_education_present (body : EducationCreate.t) (db : Store) :
  present EducationDB_model db = true ->
  create_education body db =
    (Raise (HTTPException 400
              "Education entry already exists. Use PUT to update."),
     db).
Proof.
  unfold present, create_education, bind, query_first. simpl.
  destruct (find_first (education db)); [reflexivity|discriminate].
Qed.

(** The assignment loop of the update handlers: every dumped key is a
    column other than the primary key, so the loop leaves an object that
    has the fields of the body and the key it had. *)
Lemma assign_profile (body : ProfileCreate.t) (o : ProfileDB.t) :
  fold_left (fun o kv => ProfileDB.setattr o (fst kv) (snd kv))
            (ProfileCreate.model_dump body) o
  = ProfileDB.new body (ProfileDB.id o).
Proof.
  destruct body as [n p e l g [u|]], o; reflexivity.
Qed.

Lemma assign_education (body : EducationCreate.t) (o : EducationDB.t) :
  fold_left (fun o kv => EducationDB.setattr o (fst kv) (snd kv))
            (EducationCreate.model_dump body) o
  = EducationDB.new body (EducationDB.id o).
Proof.
  destruct body, o; reflexivity.
Qed.

Lemma dumped_keys_profile (body : ProfileCreate.t) :
  ~ In "id" (map fst (ProfileCreate.model_dump body)).
Proof.
  simpl. intros H.
  repeat (destruct H as [H|H]; [discriminate H|]). exact H.
Qed.

Lemma dumped_keys_education (body : EducationCreate.t) :
  ~ In "id" (map fst (EducationCreate.model_dump body)).
Proof.
  simpl. intros H.
  repeat (destruct H as [H|H]; [discriminate H|]). exact H.
Qed.

Section UpdateFacts.
Context {R : Type}.
Variable key : R -> Z.
Variable uniq : R -> option string.

Lemma others_after_overwrite (i : Z) (a : R) (l : list R) :
  key a = i ->
  filter (fun o => negb (key o =? i)%Z) (map (overwrite key i a) l)
  = filter (fun o => negb (key o =? i)%Z) l.
Proof.
  intros Ha. unfold overwrite.
  induction l as [|x l IH]; simpl; [reflexivity|].
  destruct (key x =? i)%Z eqn:E; simpl.
  - rewrite Ha, Z.eqb_refl. simpl. exact IH.
  - rewrite E. simpl. now rewrite IH.
Qed.

Lemma overwrite_twice (i : Z) (a : R) (l : list R) :
  key a = i ->
  map (overwrite key i a) (map (overwrite key i a) l)
  = map (overwrite key i a) l.
Proof.
  intros Ha. unfold overwrite.
  induction l as [|x l IH]; simpl; [reflexivity|].
  rewrite IH. f_equal.
  destruct (key x =? i)%Z eqn:E.
  - now rewrite Ha, Z.eqb_refl.
  - now rewrite E.
Qed.

Lemma update_twice (i : Z) (a : R) (t t' : Table R) :
  key a = i ->
  update key uniq i a t = Some t' -> update key uniq i a t' = Some t'.
Proof.
  intros Ha. unfold update.
  destruct (violates key uniq a (filter _ (rows t))) eqn:V; [discriminate|].
  intros E. inversion E; subst t'; clear E. simpl.
  rewrite (others_after_overwrite i a (rows t) Ha), V.
  now rewrite (overwrite_twice i a (rows t) Ha).
Qed.

Lemma update_first (i : Z) (a r : R) (rest : list R) (t t' : Table R) :
  rows t = r :: rest -> key r = i -> key a = i ->
  update key uniq i a t = Some t' ->
  find_first t' = Some a /\ find_by_id key (key a) t' = Some a.
Proof.
  intros Hr Hk Ha. unfold update.
  destruct (violates _ _ _ _); [discriminate|].
  intros E. inversion E; subst t'; clear E.
  unfold find_first, find_by_id. simpl. rewrite Hr. simpl.
  assert (O : overwrite key i a r = a)
    by (unfold overwrite; now rewrite Hk, Z.eqb_refl).
  rewrite O, Z.eqb_refl. auto.
Qed.

Lemma update_alone (a r : R) (t : Table R) :
  rows t = [r] ->
  update key uniq (key r) a t = Some {| rows := [a]; next_id := next_id t |}.
Proof.
  intros Hr. unfold update. rewrite Hr. simpl. unfold overwrite.
  rewrite Z.eqb_refl. reflexivity.
Qed.
End UpdateFacts.

Lemma update_profile_absent (body : ProfileCreate.t) (db : Store) :
  present ProfileDB_model db = false ->
  update_profile body db =
    (Raise (HTTPException 404 "Profile not found. Use POST to create one."),
     db).
Proof.
  unfold present, update_profile, bind, query_first. simpl.
  destruct (find_first (profile db)); [discriminate|reflexivity].
Qed.

(** The UPDATE of a profile binds the [HttpUrl] objects the loop has
    assigned: the commit fails and the store is as it was. *)
Lemma update_profile_loaded (body : ProfileCreate.t) (db : Store) (r : ProfileDB.t) :
  find_first (profile db) = Some r ->
  update_profile body db = (Raise ProgrammingError, db).
Proof.
  intros H. unfold update_profile, bind, query_first.
  change (table ProfileDB_model db) with (profile db). rewrite H.
  rewrite assign_profile. reflexivity.
Qed.

Lemma update_education_absent (body : EducationCreate.t) (db : Store) :
  present EducationDB_model db = false ->
  update_education body db =
    (Raise (HTTPException 404 "Education not found. Use POST to create one."),
     db).
Proof.
  unfold present, update_education, bind, query_first. simpl.
  destruct (find_first (education db)); [discriminate|reflexivity].
Qed.

Lemma update_education_loaded (body : EducationCreate.t) (db : Store) (r : EducationDB.t) :
  find_first (education db) = Some r ->
  let a := EducationDB.as_stored (EducationDB.new body (EducationDB.id r)) in
  update_education body db =
    match update EducationDB.id (fun _ => None)
                 (EducationDB.id r) a (education db) with
    | Some t => (Return a, with_table EducationDB_model t db)
    | None => (Raise IntegrityError, db)
    end.
Proof.
  intros H a. unfold update_education, bind, query_first.
  change (table EducationDB_model db) with (education db). rewrite H.
  rewrite assign_education.
  unfold commit_changes.
  change (adaptable EducationDB_model _) with true. cbv iota.
  change (table EducationDB_model db) with (education db).
  change (pk EducationDB_model) with EducationDB.id.
  change (unique_col EducationDB_model) with (fun _ : EducationDB.t => @None string).
  change (as_stored EducationDB_model
            (EducationDB.new body (EducationDB.id r))) with a.
  destruct (update _ _ _ a (education db)) as [t|] eqn:U; [|reflexivity].
  unfold refresh. simpl.
  unfold find_first in H.
  destruct (rows (education db)) as [|r0 rest] eqn:Hr; [discriminate|].
  simpl in H. inversion H; subst r0.
  destruct (update_first EducationDB.id _ (EducationDB.id r) a r rest _ _
              Hr eq_refl eq_refl U) as [_ F].
  simpl in F. now rewrite F.
Qed.

Lemma profile_of_new (body : ProfileCreate.t) (i : Z) :
  Profile.model_validate (ProfileDB.new body i)
  = {| Profile.base := body; Profile.id := i |}.
Proof. destruct body as [n p e l g [u|]]; reflexivity. Qed.

Lemma education_of_new (body : EducationCreate.t) (i : Z) :
  Education.model_validate (EducationDB.as_stored (EducationDB.new body i))
  = {| Education.base := EducationCreate.as_read body; Education.id := i |}.
Proof. destruct body; reflexivity. Qed.

Lemma first_row {R : Type} (t : Table R) (r : R) :
  find_first t = Some r -> exists rest, rows t = r :: rest.
Proof.
  unfold find_first. destruct (rows t) as [|x rest]; simpl; [discriminate|].
  intros E. inversion E. now exists rest.
Qed.

(** ** Singleton create *)

(** C2, on the path where the code breaks it.  POST /profile on a store
    without a profile does not create one: the commit cannot bind the
    [HttpUrl] objects of the body, the answer has status 500, the store is
    as it was and GET /profile still finds nothing. *)
Theorem create_profile_fails_at_commit :
  forall (p : ProfileCreate.t) (db : Store),
    present ProfileDB_model db = false ->
    status_of (fst (create_profile p db)) = 500 /\
    snd (create_profile p db) = db /\
    get_profile (snd (create_profile p db)) = (Return None, db).
Proof.
  intros p db H. rewrite (create_profile_absent p db H). simpl.
  repeat split. unfold get_profile, query_first, present in *. simpl in *.
  now destruct (find_first (profile db)).
Qed.

(** ** Singleton update *)

(** C3, as the code has it by design.  PUT /profile and PUT /education
    fail with status 404 and leave the store as it was when the singleton
    row is absent.  When the education table holds its one row and PUT
    /education returns, the table then holds the returned row, and the
    fields of that row other than the identifier are those of the request
    body as the store gives them back: a [cgpa] of minus zero is stored
    as plus zero. *)
Theorem update_singleton_lifecycle :
  forall (p : ProfileCreate.t) (e : EducationCreate.t) (db : Store),
    (present ProfileDB_model db = false ->
       update_profile p db =
         (Raise (HTTPException 404 "Profile not found. Use POST to create one."),
          db)) /\
    (present EducationDB_model db = false ->
       update_education e db =
         (Raise (HTTPException 404 "Education not found. Use POST to create one."),
          db)) /\
    (forall r o db',
       rows (education db) = [r] ->
       update_education e db = (Return o, db') ->
       rows (education db') = [o] /\
       Education.base (Education.model_validate o) = EducationCreate.as_read e).
Proof.
  intros p e db. repeat split.
  - apply update_profile_absent.
  - apply update_education_absent.
  - assert (F : find_first (education db) = Some r)
      by (unfold find_first; now rewrite H).
    rewrite (update_education_loaded e db r F) in H0.
    rewrite (update_alone EducationDB.id _ _ r (education db) H) in H0.
    now inversion H0.
  - assert (F : find_first (education db) = Some r)
      by (unfold find_first; now rewrite H).
    rewrite (update_education_loaded e db r F) in H0.
    rewrite (update_alone EducationDB.id _ _ r (education db) H) in H0.
    inversion H0. now rewrite education_of_new.
Qed.

(** C4. Applying PUT /profile (or PUT /education) a second time with the
    same body, on the store the first call left, gives the answer of the
    first call again and leaves that store as it is.  This holds in every
    state, so in particular when the singleton row is present. *)
Theorem update_idempotent :
  forall (p : ProfileCreate.t) (e : EducationCreate.t) (db : Store),
    update_profile p (snd (update_profile p db)) = update_profile p db /\
    update_education e (snd (update_education e db)) = update_education e db.
Proof.
  intros p e db. split.
  - destruct (find_first (profile db)) as [r|] eqn:F.
    + rewrite (update_profile_loaded p db r F). cbn [snd].
      apply (update_profile_loaded p db r F).
    + assert (A : present ProfileDB_model db = false)
        by (unfold present; simpl; now rewrite F).
      rewrite (update_profile_absent p db A). cbn [snd].
      apply (update_profile_absent p db A).
  - destruct (find_first (education db)) as [r|] eqn:F.
    + rewrite (update_education_loaded e db r F).
      destruct (update _ _ _ _ (education db)) as [t|] eqn:U; cbn [snd].
      * destruct (first_row _ _ F) as [rest Hr].
        destruct (update_first EducationDB.id _ (EducationDB.id r)
                    (EducationDB.as_stored
                       (EducationDB.new e (EducationDB.id r))) r rest _ _
                    Hr eq_refl eq_refl U) as [F' _].
        assert (F'' : find_first (education (with_table EducationDB_model t db))
                      = Some (EducationDB.as_stored
                                (EducationDB.new e (EducationDB.id r))))
          by (destruct db; exact F').
        rewrite (update_education_loaded e _ _ F'').
        change (education (with_table EducationDB_model t db)) with t.
        change (EducationDB.id
                  (EducationDB.as_stored (EducationDB.new e (EducationDB.id r))))
          with (EducationDB.id r).
        rewrite (update_twice EducationDB.id _ (EducationDB.id r)
                   (EducationDB.as_stored
                      (EducationDB.new e (EducationDB.id r))) _ _ eq_refl U).
        destruct db; reflexivity.
      * rewrite (update_education_loaded e db r F), U. reflexivity.
    + assert (A : present EducationDB_model db = false)
        by (unfold present; simpl; now rewrite F).
      rewrite (update_education_absent e db A). cbn [snd].
      apply (update_education_absent e db A).
Qed.

Lemma keys_after_overwrite {R : Type} (key : R -> Z) (i : Z) (a : R) (l : list R) :
  key a = i -> map key (map (overwrite key i a) l) = map key l.
Proof.
  intros Ha. induction l as [|x l IH]; simpl; [reflexivity|].
  rewrite IH. f_equal. unfold overwrite.
  destruct (Z.eqb_spec (key x) i) as [E|E]; congruence.
Qed.

(** C10. An update leaves identifiers alone.  The assignment loop of PUT
    /profile and of PUT /education assigns the fields of the create
    shape and not [id]; after either PUT, whatever it answers, the stored
    rows carry the identifiers they carried before; and when PUT
    /education returns, the row it answers with has the identifier of the
    row it loaded and the fields of the body as the store gives them
    back, and is the row stored. *)
Theorem update_keeps_id :
  forall (p : ProfileCreate.t) (e : EducationCreate.t) (db : Store),
    (forall o,
       fold_left (fun o kv => ProfileDB.setattr o (fst kv) (snd kv))
                 (ProfileCreate.model_dump p) o
       = ProfileDB.new p (ProfileDB.id o)) /\
    (forall o,
       fold_left (fun o kv => EducationDB.setattr o (fst kv) (snd kv))
                 (EducationCreate.model_dump e) o
       = EducationDB.new e (EducationDB.id o)) /\
    map ProfileDB.id (rows (profile (snd (update_profile p db))))
    = map ProfileDB.id (rows (profile db)) /\
    map EducationDB.id (rows (education (snd (update_education e db))))
    = map EducationDB.id (rows (education db)) /\
    (forall r o db',
       find_first (education db) = Some r ->
       update_education e db = (Return o, db') ->
       EducationDB.id o = EducationDB.id r /\
       Education.model_validate o
         = {| Education.base := EducationCreate.as_read e;
              Education.id := EducationDB.id r |} /\
       find_first (education db') = Some o /\
       find_by_id EducationDB.id (EducationDB.id r) (education db') = Some o).
Proof.
  intros p e db.
  split; [intros o; apply assign_profile|].
  split; [intros o; apply assign_education|].
  split; [|split].
  - destruct (find_first (profile db)) as [r|] eqn:F.
    + now rewrite (update_profile_loaded p db r F).
    + rewrite update_profile_absent; [reflexivity|].
      unfold present. simpl. now rewrite F.
  - destruct (find_first (education db)) as [r|] eqn:F.
    + rewrite (update_education_loaded e db r F).
      destruct (update _ _ _ _ (education db)) as [t|] eqn:U; [|reflexivity].
      unfold update in U. destruct (violates _ _ _ _); [discriminate|].
      inversion U; subst t. simpl.
      now apply keys_after_overwrite.
    + rewrite update_education_absent; [reflexivity|].
      unfold present. simpl. now rewrite F.
  - intros r o db' F E.
    rewrite (update_education_loaded e db r F) in E.
    destruct (update _ _ _ _ (education db)) as [t|] eqn:U; [|discriminate].
    inversion E; subst o db'; clear E.
    destruct (first_row _ _ F) as [rest Hr].
    destruct (update_first EducationDB.id _ (EducationDB.id r)
                (EducationDB.as_stored (EducationDB.new e (EducationDB.id r)))
                r rest _ _ Hr eq_refl eq_refl U) as [F1 F2].
    repeat split; auto using education_of_new.
Qed.

(** ** What a request does to the store *)

Lemma snd_respond {A : Type} (f : A -> Content) (h : Handler A) (db : Store) :
  snd (respond f h db) = snd (h db).
Proof.
  unfold respond, bind, ret. destruct (h db) as [[a|x] db']; reflexivity.
Qed.

Section GenericFacts.
Context {C R : Type}.
Variable m : Model C R.
Hypothesis Hm : lawful m.

Lemma add_commit_plain (obj : Z -> R) (db : Store) :
  add_commit m obj db
  = match insert (pk m) (unique_col m) obj (table m db) with
    | (Some r, t) => (Return r, with_table m t db)
    | (None, t) => (Raise IntegrityError, with_table m t db)
    end.
Proof.
  destruct Hm as (_ & _ & _ & Ha & Hs).
  unfold add_commit, insert. now rewrite Ha, Hs.
Qed.

Lemma create_item_store (c : C) (db : Store) :
  snd (create_item m c db)
  = with_table m
      (snd (insert (pk m) (unique_col m) (construct m c) (table m db))) db.
Proof.
  unfold create_item, bind. rewrite add_commit_plain.
  destruct (insert _ _ _ _) as [[r|] t]; simpl; [|reflexivity].
  unfold refresh. destruct (find_by_id _ _ _); reflexivity.
Qed.

Lemma delete_item_store (i : Z) (db : Store) :
  snd (delete_item m i db)
  = match find_by_id (pk m) i (table m db) with
    | Some o =>
        with_table m (snd (delete_by_id (pk m) (pk m o) (table m db))) db
    | None => db
    end.
Proof.
  unfold delete_item, bind, query_by_id. simpl.
  destruct (find_by_id _ _ _); reflexivity.
Qed.

Lemma create_item_returned (c : C) (db db' : Store) (r : R) :
  create_item m c db = (Return r, db') ->
  r = construct m c (next_id (table m db)) /\
  violates (pk m) (unique_col m) r (rows (table m db)) = false /\
  db' = with_table m {| rows := rows (table m db) ++ [r];
                        next_id := next_id (table m db) + 1 |} db.
Proof.
  pose proof Hm as (Hget & _).
  unfold create_item, bind. rewrite add_commit_plain.
  destruct (insert _ _ _ _) as [[r0|] t] eqn:I; [|discriminate].
  destruct (insert_some _ _ _ _ _ _ I) as (E0 & V & Et).
  unfold refresh. rewrite Hget. subst t.
  rewrite (find_by_id_appended (pk m) (unique_col m) r0 _ _ V).
  intros E. inversion E; subst. auto.
Qed.

Lemma create_item_accepted (c : C) (db : Store) :
  let r := construct m c (next_id (table m db)) in
  violates (pk m) (unique_col m) r (rows (table m db)) = false ->
  create_item m c db
  = (Return r,
     with_table m {| rows := rows (table m db) ++ [r];
                     next_id := next_id (table m db) + 1 |} db).
Proof.
  pose proof Hm as (Hget & _). intros r V.
  unfold create_item, bind. rewrite add_commit_plain.
  unfold insert. fold r. rewrite V.
  unfold refresh. rewrite Hget.
  now rewrite (find_by_id_appended (pk m) (unique_col m) r _ _ V).
Qed.

Lemma create_item_rejected (c : C) (db : Store) :
  let r := construct m c (next_id (table m db)) in
  violates (pk m) (unique_col m) r (rows (table m db)) = true ->
  create_item m c db
  = (Raise IntegrityError,
     with_table m {| rows := rows (table m db);
                     next_id := next_id (table m db) + 1 |} db).
Proof.
  intros r V. unfold create_item, bind. rewrite add_commit_plain.
  unfold insert. fold r. now rewrite V.
Qed.
End GenericFacts.

Ltac unfold_routes :=
  unfold add_experience, delete_experience, add_project, delete_project,
    add_skill_category, delete_skill_category, add_certification,
    delete_certification, get_all_experiences, get_all_projects,
    get_all_skill_categories, get_all_certifications, get_items, query_all,
    get_profile, get_education, query_first, read_root, ret.

Ltac route_stores :=
  rewrite ?(create_item_store ExperienceDB_model
              (collection_lawful _ collection_experience)),
    ?(create_item_store ProjectDB_model
        (collection_lawful _ collection_projects)),
    ?(create_item_store SkillCategoryDB_model
        (collection_lawful _ collection_skills)),
    ?(create_item_store CertificationDB_model
        (collection_lawful _ collection_certifications)),
    ?delete_item_store.

(** Only POST /profile adds a row to the profile table, and only to an
    empty one; every other request leaves the number of rows as it is. *)
Lemma step_profile (req : Request) (db : Store) :
  let db' := snd (handle req db) in
  length (rows (profile db')) = length (rows (profile db)) \/
  (rows (profile db) = [] /\ length (rows (profile db')) = 1%nat /\
   exists body, req = POST_profile body).
Proof.
  destruct req; unfold handle; rewrite snd_respond; unfold_routes;
    route_stores;
    try (destruct (find_by_id _ _ _)); try (left; reflexivity).
  - left. destruct (present ProfileDB_model db) eqn:P.
    + now rewrite (create_profile_present body db P).
    + now rewrite (create_profile_absent body db P).
  - left. destruct (find_first (profile db)) as [r|] eqn:F.
    + now rewrite (update_profile_loaded body db r F).
    + rewrite update_profile_absent; [reflexivity|].
      unfold present. simpl. now rewrite F.
  - left. destruct (present EducationDB_model db) eqn:P.
    + now rewrite (create_education_present body db P).
    + now rewrite (create_education_absent body db P).
  - left. destruct (find_first (education db)) as [r|] eqn:F.
    + rewrite (update_education_loaded body db r F).
      now destruct (update _ _ _ _ (education db)).
    + rewrite update_education_absent; [reflexivity|].
      unfold present. simpl. now rewrite F.
Qed.

(** The same for POST /education and the education table. *)
Lemma step_education (req : Request) (db : Store) :
  let db' := snd (handle req db) in
  length (rows (education db')) = length (rows (education db)) \/
  (rows (education db) = [] /\ length (rows (education db')) = 1%nat /\
   exists body, req = POST_education body).
Proof.
  destruct req; unfold handle; rewrite snd_respond; unfold_routes;
    route_stores;
    try (destruct (find_by_id _ _ _)); try (left; reflexivity).
  - left. destruct (present ProfileDB_model db) eqn:P.
    + now rewrite (create_profile_present body db P).
    + now rewrite (create_profile_absent body db P).
  - left. destruct (find_first (profile db)) as [r|] eqn:F.
    + now rewrite (update_profile_loaded body db r F).
    + rewrite update_profile_absent; [reflexivity|].
      unfold present. simpl. now rewrite F.
  - destruct (present EducationDB_model db) eqn:P.
    + rewrite (create_education_present body db P). left. reflexivity.
    + rewrite (create_education_absent body db P). right.
      apply present_rows in P. simpl in P.
      repeat split; [exact P|]. now exists body.
  - left. destruct (find_first (education db)) as [r|] eqn:F.
    + rewrite (update_education_loaded body db r F).
      destruct (update _ _ _ _ (education db)) as [t|] eqn:U; [|reflexivity].
      apply (update_rows_length _ _ _ _ _ _ U).
    + rewrite update_education_absent; [reflexivity|].
      unfold present. simpl. now rewrite F.
Qed.

(** ** The singleton invariant and the missing way back *)

Lemma run_cons (req : Request) (reqs : list Request) (db : Store) :
  run (req :: reqs) db = run reqs (snd (handle req db)).
Proof. reflexivity. Qed.

Lemma run_keeps_singletons (reqs : list Request) (db : Store) :
  (length (rows (profile db)) <= 1)%nat ->
  (length (rows (education db)) <= 1)%nat ->
  (length (rows (profile (run reqs db))) <= 1)%nat /\
  (length (rows (education (run reqs db))) <= 1)%nat.
Proof.
  revert db. induction reqs as [|req reqs IH]; intros db Hp He.
  - now split.
  - rewrite run_cons. apply IH.
    + destruct (step_profile req db) as [B|(_ & B & _)]; rewrite B;
        [exact Hp|apply Nat.le_refl].
    + destruct (step_education req db) as [B|(_ & B & _)]; rewrite B;
        [exact He|apply Nat.le_refl].
Qed.

Lemma run_never_shrinks (reqs : list Request) (db : Store) :
  (length (rows (profile db)) <= length (rows (profile (run reqs db))))%nat /\
  (length (rows (education db)) <= length (rows (education (run reqs db))))%nat.
Proof.
  revert db. induction reqs as [|req reqs IH]; intros db.
  - split; apply Nat.le_refl.
  - rewrite run_cons. destruct (IH (snd (handle req db))) as [Ip Ie].
    split.
    + destruct (step_profile req db) as [B|(Z0 & B & _)].
      * now rewrite <- B.
      * rewrite Z0. apply Nat.le_0_l.
    + destruct (step_education req db) as [B|(Z0 & B & _)].
      * now rewrite <- B.
      * rewrite Z0. apply Nat.le_0_l.
Qed.

Lemma present_length {C R : Type} (m : Model C R) (db : Store) :
  present m db = true <-> (1 <= length (rows (table m db)))%nat.
Proof.
  unfold present, find_first.
  destruct (rows (table m db)); simpl; split; intros; try lia; congruence.
Qed.

(** C1. After any sequence of requests served from a fresh store, the
    profile table and the education table hold at most one row each.
    The reason is in the second part: a request leaves the number of rows
    of such a table as it is, unless it is the POST of that resource and
    the table is empty, which then gets its one row. *)
Theorem singleton_invariant :
  (forall reqs : list Request,
     (length (rows (profile (run reqs empty_store))) <= 1)%nat /\
     (length (rows (education (run reqs empty_store))) <= 1)%nat) /\
  (forall (req : Request) (db : Store),
     let db' := snd (handle req db) in
     (length (rows (profile db')) = length (rows (profile db)) \/
      (rows (profile db) = [] /\ length (rows (profile db')) = 1%nat /\
       exists body, req = POST_profile body)) /\
     (length (rows (education db')) = length (rows (education db)) \/
      (rows (education db) = [] /\ length (rows (education db')) = 1%nat /\
       exists body, req = POST_education body))).
Proof.
  split.
  - intros reqs. apply run_keeps_singletons; simpl; apply Nat.le_0_l.
  - intros req db. split; [apply step_profile|apply step_education].
Qed.

(** C9. A singleton that is present stays present after every sequence
    of requests: no request removes the profile row or the education
    row.  In particular, once POST /education has succeeded the
    education entry is there for good. *)
Theorem singleton_never_removed :
  forall (e : EducationCreate.t) (db : Store) (reqs : list Request),
    (present ProfileDB_model db = true ->
     present ProfileDB_model (run reqs db) = true) /\
    (present EducationDB_model db = true ->
     present EducationDB_model (run reqs db) = true) /\
    (forall r db',
       create_education e db = (Return r, db') ->
       present EducationDB_model (run reqs db') = true).
Proof.
  intros e db reqs. split; [|split].
  - intros P. apply present_length. apply present_length in P. simpl in *.
    destruct (run_never_shrinks reqs db) as [M _].
    eapply Nat.le_trans; eassumption.
  - intros P. apply present_length. apply present_length in P. simpl in *.
    destruct (run_never_shrinks reqs db) as [_ M].
    eapply Nat.le_trans; eassumption.
  - intros r db' E. apply present_length. simpl.
    destruct (run_never_shrinks reqs db') as [_ M].
    enough (H : (length (rows (education db')) = 1)%nat)
      by (rewrite <- H; exact M).
    destruct (present EducationDB_model db) eqn:P.
    + rewrite (create_education_present e db P) in E. discriminate.
    + rewrite (create_education_absent e db P) in E.
      inversion E; subst. reflexivity.
Qed.

(** ** Collections: create, list, delete *)

Section ListFacts.
Context {R : Type}.
Variable key : R -> Z.

Lemma find_stored (i : Z) (l : list R) :
  existsb (fun r => (key r =? i)%Z) l = true ->
  exists o, find (fun r => (key r =? i)%Z) l = Some o /\ key o = i.
Proof.
  induction l as [|x l IH]; simpl; [discriminate|].
  destruct (key x =? i)%Z eqn:E; simpl.
  - intros _. exists x. split; [reflexivity|]. now apply Z.eqb_eq.
  - exact IH.
Qed.

Lemma find_not_stored (i : Z) (l : list R) :
  existsb (fun r => (key r =? i)%Z) l = false ->
  find (fun r => (key r =? i)%Z) l = None.
Proof.
  induction l as [|x l IH]; simpl; [reflexivity|].
  destruct (key x =? i)%Z; simpl; [discriminate|exact IH].
Qed.

Lemma not_stored_after_filter (i : Z) (l : list R) :
  existsb (fun r => (key r =? i)%Z)
          (filter (fun r => negb (key r =? i)%Z) l) = false.
Proof.
  induction l as [|x l IH]; simpl; [reflexivity|].
  destruct (key x =? i)%Z eqn:E; simpl; [exact IH|].
  now rewrite E.
Qed.

Lemma filter_keeps_all (i : Z) (l : list R) :
  ~ In i (map key l) -> filter (fun r => negb (key r =? i)%Z) l = l.
Proof.
  induction l as [|x l IH]; simpl; intros H; [reflexivity|].
  destruct (Z.eqb_spec (key x) i) as [E|E]; simpl.
  - exfalso. apply H. now left.
  - f_equal. apply IH. intros K. apply H. now right.
Qed.

Lemma filter_removes_one (i : Z) (l : list R) :
  NoDup (map key l) ->
  existsb (fun r => (key r =? i)%Z) l = true ->
  exists before r after,
    l = before ++ r :: after /\ key r = i /\
    filter (fun r => negb (key r =? i)%Z) l = before ++ after.
Proof.
  induction l as [|x l IH]; simpl; intros N H; [discriminate|].
  inversion N as [|k ks Hx N']; subst.
  destruct (Z.eqb_spec (key x) i) as [E|E]; simpl.
  - exists [], x, l. repeat split; auto.
    simpl. apply filter_keeps_all. now rewrite <- E.
  - simpl in H. destruct (IH N' H) as (b & r & a & El & Er & Ef).
    exists (x :: b), r, a. repeat split; auto.
    + simpl. now rewrite El.
    + simpl. now rewrite Ef.
Qed.
End ListFacts.

Section CollectionFacts.
Context {C R : Type}.
Variable m : Model C R.
Hypothesis Hm : lawful m.

Lemma get_items_after_create (c : C) (db db' : Store) (r : R) :
  create_item m c db = (Return r, db') ->
  get_items m db = (Return (rows (table m db)), db) /\
  get_items m db' = (Return (rows (table m db) ++ [r]), db') /\
  r = construct m c (pk m r).
Proof.
  intros E. destruct (create_item_returned m Hm c db db' r E) as (Er & _ & Ed).
  destruct Hm as (Hget & _ & Hpk & _).
  split; [reflexivity|]. split.
  - unfold get_items, query_all, find_all. subst db'. now rewrite Hget.
  - rewrite Er at 2. now rewrite Hpk.
Qed.

Lemma delete_item_missing (i : Z) (db : Store) :
  stored m i db = false ->
  delete_item m i db = (Raise (HTTPException 404 "Item not found"), db).
Proof.
  intros H. unfold delete_item, bind, query_by_id, find_by_id.
  now rewrite (find_not_stored (pk m) i _ H).
Qed.

Lemma delete_item_found (i : Z) (db : Store) :
  stored m i db = true ->
  delete_item m i db
  = (Return "Item deleted successfully",
     with_table m
       {| rows := filter (fun r => negb (pk m r =? i)%Z) (rows (table m db));
          next_id := next_id (table m db) |} db).
Proof.
  intros H. unfold delete_item, bind, query_by_id, find_by_id.
  destruct (find_stored (pk m) i _ H) as (o & F & K).
  rewrite F. unfold delete_commit, delete_by_id, ret. simpl. now rewrite K.
Qed.
End CollectionFacts.

(** C5, as the code has it by design.  A create that returned is
    visible to the read that follows it.  For the education entry, GET
    returns the created row; for the collections, the list holds the
    created row together with the rows it held before.  In each case the
    row, seen through its response schema, is the request body extended
    with the identifier the create answered with, where the education
    body is taken as the store gives it back: a [cgpa] of minus zero is
    read as plus zero. *)
Theorem create_then_read :
  (forall e db r db',
     create_education e db = (Return r, db') ->
     get_education db' = (Return (Some r), db') /\
     Education.model_validate r
       = {| Education.base := EducationCreate.as_read e;
            Education.id := EducationDB.id r |}) /\
  (forall b db r db',
     add_experience b db = (Return r, db') ->
     exists l l',
       get_all_experiences db = (Return l, db) /\
       get_all_experiences db' = (Return l', db') /\
       Permutation l' (r :: l) /\
       Experience.model_validate r
         = {| Experience.base := b; Experience.id := ExperienceDB.id r |}) /\
  (forall b db r db',
     add_project b db = (Return r, db') ->
     exists l l',
       get_all_projects db = (Return l, db) /\
       get_all_projects db' = (Return l', db') /\
       Permutation l' (r :: l) /\
       Project.model_validate r
         = {| Project.base := b; Project.id := ProjectDB.id r |}) /\
  (forall b db r db',
     add_skill_category b db = (Return r, db') ->
     exists l l',
       get_all_skill_categories db = (Return l, db) /\
       get_all_skill_categories db' = (Return l', db') /\
       Permutation l' (r :: l) /\
       SkillCategory.model_validate r
         = {| SkillCategory.base := b; SkillCategory.id := SkillCategoryDB.id r |}) /\
  (forall b db r db',
     add_certification b db = (Return r, db') ->
     exists l l',
       get_all_certifications db = (Return l, db) /\
       get_all_certifications db' = (Return l', db') /\
       Permutation l' (r :: l) /\
       Certification.model_validate r
         = {| Certification.base := b; Certification.id := CertificationDB.id r |}).
Proof.
  split; [|split; [|split; [|split]]]; intros b db r db' H.
  - destruct (present EducationDB_model db) eqn:P.
    + rewrite (create_education_present b db P) in H. discriminate.
    + rewrite (create_education_absent b db P) in H. inversion H.
      split; [reflexivity|apply education_of_new].
  - destruct (get_items_after_create ExperienceDB_model
                (collection_lawful _ collection_experience) b db db' r H)
      as (L0 & L1 & Er).
    exists (rows (experience db)), (rows (experience db) ++ [r]).
    repeat split; auto.
    + apply Permutation_sym, Permutation_cons_append.
    + rewrite Er. destruct b; reflexivity.
  - destruct (get_items_after_create ProjectDB_model
                (collection_lawful _ collection_projects) b db db' r H)
      as (L0 & L1 & Er).
    exists (rows (projects db)), (rows (projects db) ++ [r]).
    repeat split; auto.
    + apply Permutation_sym, Permutation_cons_append.
    + rewrite Er. destruct b; reflexivity.
  - destruct (get_items_after_create SkillCategoryDB_model
                (collection_lawful _ collection_skills) b db db' r H)
      as (L0 & L1 & Er).
    exists (rows (skill_categories db)), (rows (skill_categories db) ++ [r]).
    repeat split; auto.
    + apply Permutation_sym, Permutation_cons_append.
    + rewrite Er. destruct b; reflexivity.
  - destruct (get_items_after_create CertificationDB_model
                (collection_lawful _ collection_certifications) b db db' r H)
      as (L0 & L1 & Er).
    exists (rows (certifications db)), (rows (certifications db) ++ [r]).
    repeat split; auto.
    + apply Permutation_sym, Permutation_cons_append.
    + rewrite Er. destruct b; reflexivity.
Qed.

(** C6. On each collection, DELETE of an identifier that no row carries
    fails with status 404 and leaves the store as it was.  When a row
    carries it, DELETE succeeds and the store differs only in that table,
    which keeps, in order, the rows with another identifier; the list that
    follows has no row with the deleted identifier, and where identifiers
    are unique exactly one row is gone. *)
Theorem delete_item_lifecycle :
  forall (C R : Type) (m : Model C R),
    collection m ->
    forall (i : Z) (db : Store),
      (stored m i db = false ->
         delete_item m i db
         = (Raise (HTTPException 404 "Item not found"), db)) /\
      (stored m i db = true ->
         let kept :=
           filter (fun r => negb (pk m r =? i)%Z) (rows (table m db)) in
         let db' :=
           with_table m
             {| rows := kept; next_id := next_id (table m db) |} db in
         delete_item m i db = (Return "Item deleted successfully", db') /\
         get_items m db' = (Return kept, db') /\
         stored m i db' = false /\
         (NoDup (map (pk m) (rows (table m db))) ->
            exists before r after,
              rows (table m db) = before ++ r :: after /\
              pk m r = i /\ kept = before ++ after)).
Proof.
  intros C R m Hc i db. pose proof (collection_lawful m Hc) as Hm.
  split.
  - apply delete_item_missing.
  - intros H kept db'. destruct Hm as (Hget & _ & _).
    split; [apply (delete_item_found m i db H)|].
    split; [unfold get_items, query_all, find_all, db'; now rewrite Hget|].
    split.
    + unfold stored, db'. rewrite Hget. simpl. apply not_stored_after_filter.
    + intros N. apply (filter_removes_one (pk m) i _ N H).
Qed.

(** ** Uniqueness of the category name *)

Lemma violates_same_name (r : SkillCategoryDB.t) (l : list SkillCategoryDB.t) :
  existsb (fun o => (SkillCategoryDB.category_name o
                     =? SkillCategoryDB.category_name r)%string) l = true ->
  violates SkillCategoryDB.id
           (fun o => Some (SkillCategoryDB.category_name o)) r l = true.
Proof.
  unfold violates. intros H. apply existsb_exists in H.
  destruct H as (o & Ho & E). apply existsb_exists. exists o.
  split; [exact Ho|]. simpl. rewrite E. apply orb_true_r.
Qed.

(** C7, as the code has it.  When a stored category already has the name
    of the body, POST /skills raises the constraint violation of the
    store, whatever the skills of the body are.  No handler catches it,
    so the answer has status 500, and the list of categories afterwards
    is the list before. *)
Theorem duplicate_category_rejected :
  forall (body : SkillCategoryCreate.t) (db : Store),
    existsb (fun o => (SkillCategoryDB.category_name o
                       =? SkillCategoryCreate.category_name body)%string)
            (rows (skill_categories db)) = true ->
    fst (add_skill_category body db) = Raise IntegrityError /\
    status_of (fst (add_skill_category body db)) = 500 /\
    get_all_skill_categories (snd (add_skill_category body db))
    = (Return (rows (skill_categories db)), snd (add_skill_category body db)).
Proof.
  intros body db H. unfold add_skill_category.
  rewrite (create_item_rejected SkillCategoryDB_model
             (collection_lawful _ collection_skills) body db).
  - repeat split.
  - apply violates_same_name. exact H.
Qed.

(** ** Listing order *)

Section OrderFacts.
Context {C R : Type}.
Variable m : Model C R.
Hypothesis Hm : lawful m.

Lemma create_step (c : C) (db : Store) :
  let r := construct m c (next_id (table m db)) in
  (create_item m c db
   = (Return r,
      with_table m {| rows := rows (table m db) ++ [r];
                      next_id := next_id (table m db) + 1 |} db)) \/
  (create_item m c db
   = (Raise IntegrityError,
      with_table m {| rows := rows (table m db);
                      next_id := next_id (table m db) + 1 |} db)).
Proof.
  intros r.
  destruct (violates (pk m) (unique_col m) r (rows (table m db))) eqn:V.
  - right. now apply create_item_rejected.
  - left. now apply create_item_accepted.
Qed.

Lemma delete_step (i : Z) (db : Store) :
  (stored m i db = true /\
   delete_item m i db
   = (Return "Item deleted successfully",
      with_table m
        {| rows := filter (fun r => negb (pk m r =? i)%Z)
                          (rows (table m db));
           next_id := next_id (table m db) |} db)) \/
  (stored m i db = false /\
   delete_item m i db = (Raise (HTTPException 404 "Item not found"), db)).
Proof.
  destruct (stored m i db) eqn:S0.
  - left. split; [reflexivity|]. now apply delete_item_found.
  - right. split; [reflexivity|]. now apply delete_item_missing.
Qed.

Lemma created_keys (ops : list (item_op C)) (db : Store) :
  Forall (fun r => next_id (table m db) <= pk m r) (created m ops db).
Proof.
  destruct Hm as (Hget & _ & Hpk & _).
  revert db. induction ops as [|[c|i] rest IH]; intros db; simpl.
  - constructor.
  - destruct (create_step c db) as [E|E]; rewrite E; simpl.
    + constructor; [rewrite Hpk; lia|].
      eapply Forall_impl; [|apply IH]. simpl. intros r.
      rewrite Hget. simpl. lia.
    + eapply Forall_impl; [|apply IH]. simpl. intros r.
      rewrite Hget. simpl. lia.
  - destruct (delete_step i db) as [[_ E]|[_ E]]; rewrite E; simpl.
    + eapply Forall_impl; [|apply IH]. simpl. intros r.
      rewrite Hget. simpl. lia.
    + apply IH.
Qed.

Lemma filter_no_deletes (l : list R) :
  filter (fun r => negb (existsb (Z.eqb (pk m r)) [])) l = l.
Proof.
  induction l as [|x l IH]; simpl; [reflexivity|]. f_equal. exact IH.
Qed.

Lemma filter_one_more_delete (i : Z) (ds : list Z) (l : list R) :
  filter (fun r => negb ((pk m r =? i)%Z || existsb (Z.eqb (pk m r)) ds)) l
  = filter (fun r => negb (existsb (Z.eqb (pk m r)) ds))
           (filter (fun r => negb (pk m r =? i)%Z) l).
Proof.
  induction l as [|x l IH]; simpl; [reflexivity|].
  destruct (pk m x =? i)%Z; simpl.
  - exact IH.
  - destruct (existsb (Z.eqb (pk m x)) ds); simpl; now rewrite IH.
Qed.

Lemma stored_below (i : Z) (db : Store) :
  keys_below m db -> stored m i db = true -> i < next_id (table m db).
Proof.
  unfold keys_below, stored. intros K H.
  apply existsb_exists in H. destruct H as (o & Ho & E).
  apply Z.eqb_eq in E. subst i.
  rewrite Forall_forall in K. now apply K.
Qed.

Lemma listing_survivors (ops : list (item_op C)) (db : Store) :
  keys_below m db ->
  rows (table m (run_items m ops db)) = survivors m ops db.
Proof.
  destruct Hm as (Hget & _ & Hpk & _).
  revert db. induction ops as [|[c|i] rest IH]; intros db K;
    unfold survivors.
  - simpl deleted. simpl created. simpl run_items.
    now rewrite app_nil_r, filter_no_deletes.
  - simpl. destruct (create_step c db) as [E|E]; rewrite E; simpl.
    + rewrite IH.
      * unfold survivors. rewrite Hget. simpl.
        now rewrite <- app_assoc.
      * unfold keys_below in *. rewrite Hget. simpl.
        apply Forall_app. split.
        -- eapply Forall_impl; [|exact K]. simpl. intros; lia.
        -- constructor; [rewrite Hpk; lia|constructor].
    + rewrite IH.
      * unfold survivors. now rewrite Hget.
      * unfold keys_below in *. rewrite Hget. simpl.
        eapply Forall_impl; [|exact K]. simpl. intros; lia.
  - simpl. destruct (delete_step i db) as [[S0 E]|[S0 E]]; rewrite E; simpl.
    + rewrite IH.
      * unfold survivors. rewrite Hget. simpl.
        rewrite filter_one_more_delete.
        rewrite (filter_app (fun r => negb (pk m r =? i)%Z)).
        f_equal. f_equal.
        symmetry. apply filter_keeps_all.
        pose proof (stored_below i db K S0) as B.
        pose proof (created_keys rest
                      (with_table m
                         {| rows := filter (fun r => negb (pk m r =? i)%Z)
                                           (rows (table m db));
                            next_id := next_id (table m db) |} db)) as F.
        rewrite Hget in F. simpl in F.
        rewrite Forall_forall in F. intros I.
        apply in_map_iff in I. destruct I as (r & Er & Ir).
        specialize (F r Ir). lia.
      * unfold keys_below in *. rewrite Hget. simpl.
        rewrite Forall_forall in *. intros r Ir.
        apply filter_In in Ir. apply K. tauto.
    + rewrite IH by exact K. reflexivity.
Qed.
End OrderFacts.

(** The collection routes are the generic steps. *)
Lemma routes_are_item_steps (db : Store) :
  (forall b, snd (handle (POST_experience b) db)
             = item_step ExperienceDB_model db (Create b)) /\
  (forall i, snd (handle (DELETE_experience i) db)
             = item_step ExperienceDB_model db (Delete i)) /\
  (forall b, snd (handle (POST_projects b) db)
             = item_step ProjectDB_model db (Create b)) /\
  (forall i, snd (handle (DELETE_projects i) db)
             = item_step ProjectDB_model db (Delete i)) /\
  (forall b, snd (handle (POST_skills b) db)
             = item_step SkillCategoryDB_model db (Create b)) /\
  (forall i, snd (handle (DELETE_skills i) db)
             = item_step SkillCategoryDB_model db (Delete i)) /\
  (forall b, snd (handle (POST_certifications b) db)
             = item_step CertificationDB_model db (Create b)) /\
  (forall i, snd (handle (DELETE_certifications i) db)
             = item_step CertificationDB_model db (Delete i)).
Proof.
  repeat split; intros; unfold handle; now rewrite snd_respond.
Qed.

(** C8. On each collection, after any sequence of creates and deletes the
    list is the surviving rows in creation order: the rows the table had,
    then the rows the successful creates answered with, oldest first,
    without those whose identifier a successful delete was called with. *)
Theorem list_in_creation_order :
  forall (C R : Type) (m : Model C R),
    collection m ->
    forall (ops : list (item_op C)) (db : Store),
      keys_below m db ->
      get_items m (run_items m ops db)
      = (Return (survivors m ops db), run_items m ops db).
Proof.
  intros C R m Hc ops db K.
  unfold get_items, query_all, find_all.
  now rewrite (listing_survivors m (collection_lawful m Hc) ops db K).
Qed.

(** ** Reachable stores are well keyed *)

Section KeyFacts.
Context {C R : Type}.
Variable m : Model C R.
Hypothesis Hm : lawful m.

Lemma NoDup_filter_keys (f : R -> bool) (l : list R) :
  NoDup (map (pk m) l) -> NoDup (map (pk m) (filter f l)).
Proof.
  induction l as [|x l IH]; simpl; intros N; [constructor|].
  inversion N as [|k ks Hx N']; subst.
  destruct (f x); simpl; [|now apply IH].
  constructor; [|now apply IH].
  intros I. apply Hx. apply in_map_iff in I.
  destruct I as (y & Ey & Iy). apply filter_In in Iy.
  apply in_map_iff. exists y. tauto.
Qed.

Lemma item_step_well_keyed (op : item_op C) (db : Store) :
  well_keyed m db -> well_keyed m (item_step m db op).
Proof.
  destruct Hm as (Hget & _ & Hpk & _). unfold well_keyed, keys_below.
  intros (K & N). destruct op as [c|i]; simpl.
  - destruct (create_step m Hm c db) as [E|E]; rewrite E; simpl;
      rewrite Hget; simpl.
    + split.
      * apply Forall_app. split.
        -- eapply Forall_impl; [|exact K]. simpl. intros; lia.
        -- constructor; [rewrite Hpk; lia|constructor].
      * rewrite map_app. simpl. rewrite Hpk.
        apply NoDup_app; [exact N|repeat constructor; intros []|].
        intros k Ik [Ek|[]]. subst k.
        apply in_map_iff in Ik. destruct Ik as (y & Ey & Iy).
        rewrite Forall_forall in K. specialize (K y Iy). lia.
    + split; [|exact N].
      eapply Forall_impl; [|exact K]. simpl. intros; lia.
  - destruct (delete_step m i db) as [[_ E]|[_ E]]; rewrite E; simpl.
    + rewrite Hget. simpl. split.
      * rewrite Forall_forall in *. intros r Ir.
        apply filter_In in Ir. apply K. tauto.
      * now apply NoDup_filter_keys.
    + now split.
Qed.
End KeyFacts.

(** A request either is a create or a delete on the collection [m], or
    leaves the table of [m] as it is. *)
Lemma handle_on_collection {C R : Type} (m : Model C R) :
  collection m ->
  forall (req : Request) (db : Store),
    table m (snd (handle req db)) = table m db \/
    exists op, snd (handle req db) = item_step m db op.
Proof.
  intros Hc req db.
  destruct Hc; destruct req;
    try (right; eexists (Create _); unfold handle; rewrite snd_respond;
         reflexivity);
    try (right; eexists (Delete _); unfold handle; rewrite snd_respond;
         reflexivity);
    left; unfold handle; rewrite snd_respond; unfold_routes;
    route_stores;
    try (destruct (find_by_id _ _ _)); try reflexivity.
  all: try (destruct (present ProfileDB_model db) eqn:P;
            [rewrite (create_profile_present _ db P)
            |rewrite (create_profile_absent _ db P)]; reflexivity).
  all: try (destruct (present EducationDB_model db) eqn:P;
            [rewrite (create_education_present _ db P)
            |rewrite (create_education_absent _ db P)]; reflexivity).
  all: try (destruct (find_first (profile db)) as [r|] eqn:F;
            [rewrite (update_profile_loaded _ db r F); reflexivity
            |rewrite update_profile_absent;
             [reflexivity|unfold present; simpl; now rewrite F]]).
  all: destruct (find_first (education db)) as [r|] eqn:F;
         [rewrite (update_education_loaded _ db r F);
          destruct (update _ _ _ _ (education db)); reflexivity
         |rewrite update_education_absent;
          [reflexivity|unfold present; simpl; now rewrite F]].
Qed.

Lemma run_well_keyed {C R : Type} (m : Model C R) :
  collection m ->
  forall (reqs : list Request) (db : Store),
    well_keyed m db -> well_keyed m (run reqs db).
Proof.
  intros Hc reqs. induction reqs as [|req reqs IH]; intros db W; [exact W|].
  rewrite run_cons. apply IH.
  destruct (handle_on_collection m Hc req db) as [E|[op E]].
  - unfold well_keyed, keys_below in *. now rewrite E.
  - rewrite E. now apply item_step_well_keyed; [apply collection_lawful|].
Qed.

(** Every store the API reaches from a fresh database has, in each
    collection, distinct identifiers that lie below the sequence. *)
Lemma reachable_well_keyed {C R : Type} (m : Model C R) (db : Store) :
  collection m -> reachable db -> well_keyed m db.
Proof.
  intros Hc [reqs ->]. apply (run_well_keyed m Hc).
  destruct Hc; (split; [constructor|constructor]).
Qed.

(** ** The statements at work on sample data *)

Lemma create_profile_fails_at_commit_witness :
  status_of (fst (create_profile sample_profile empty_store)) = 500 /\
  snd (create_profile sample_profile empty_store) = empty_store /\
  get_profile (snd (create_profile sample_profile empty_store))
  = (Return None, empty_store).
Proof.
  apply (create_profile_fails_at_commit sample_profile empty_store).
  reflexivity.
Defined.

Lemma update_singleton_lifecycle_witness :
  update_profile other_profile empty_store
  = (Raise (HTTPException 404 "Profile not found. Use POST to create one."),
     empty_store) /\
  update_education other_education empty_store
  = (Raise (HTTPException 404 "Education not found. Use POST to create one."),
     empty_store) /\
  (let o := EducationDB.new other_education 1 in
   rows (education (snd (update_education other_education populated_store)))
   = [o] /\
   Education.base (Education.model_validate o)
   = EducationCreate.as_read other_education).
Proof.
  destruct (update_singleton_lifecycle other_profile other_education
              empty_store) as (A & B & _).
  destruct (update_singleton_lifecycle other_profile other_education
              populated_store) as (_ & _ & C).
  split; [apply A; reflexivity|].
  split; [apply B; reflexivity|].
  apply (C (EducationDB.new sample_education 1)); reflexivity.
Defined.

Lemma plus_zero_is_not_minus_zero : 0%float <> (-0)%float.
Proof.
  intros H. apply (f_equal classify) in H. vm_compute in H. discriminate H.
Qed.

(** C3, with every field equal to the body as the specification words
    it, fails: a PUT /education whose [cgpa] is minus zero returns, and the
    row stored afterwards has a [cgpa] of plus zero. *)
Lemma update_education_loses_minus_zero :
  exists o db',
    rows (education populated_store)
    = [EducationDB.new sample_education 1] /\
    update_education minus_zero_education populated_store = (Return o, db') /\
    rows (education db') = [o] /\
    EducationDB.cgpa o <> EducationCreate.cgpa minus_zero_education.
Proof.
  exists (EducationDB.as_stored (EducationDB.new minus_zero_education 1)).
  exists (snd (update_education minus_zero_education populated_store)).
  split; [reflexivity|]. split; [vm_compute; reflexivity|].
  split; [vm_compute; reflexivity|].
  vm_compute. exact plus_zero_is_not_minus_zero.
Qed.

Lemma update_keeps_id_witness :
  let o := EducationDB.new other_education 1 in
  EducationDB.id o = 1 /\
  Education.model_validate o
  = {| Education.base := EducationCreate.as_read other_education;
       Education.id := 1 |} /\
  find_first (education (snd (update_education other_education populated_store)))
  = Some o /\
  find_by_id EducationDB.id 1
    (education (snd (update_education other_education populated_store)))
  = Some o.
Proof.
  destruct (update_keeps_id other_profile other_education populated_store)
    as (_ & _ & _ & _ & B).
  apply (B (EducationDB.new sample_education 1)); reflexivity.
Defined.

Lemma singleton_never_removed_witness :
  let later := [ PUT_profile other_profile; DELETE_experience 1;
                 POST_profile other_profile; PUT_education other_education;
                 DELETE_skills 1; GET_profile ] in
  present ProfileDB_model (run later seeded_store) = true /\
  present EducationDB_model (run later populated_store) = true /\
  present EducationDB_model
    (run later (snd (create_education sample_education empty_store))) = true.
Proof.
  intros later.
  destruct (singleton_never_removed sample_education seeded_store later)
    as (A & _ & _).
  destruct (singleton_never_removed sample_education populated_store later)
    as (_ & B & _).
  destruct (singleton_never_removed sample_education empty_store later)
    as (_ & _ & C).
  split; [apply A; reflexivity|]. split; [apply B; reflexivity|].
  apply (C (EducationDB.new sample_education 1)). reflexivity.
Defined.

Lemma create_then_read_witness :
  (get_education (snd (create_education sample_education empty_store))
   = (Return (Some (EducationDB.new sample_education 1)),
      snd (create_education sample_education empty_store)) /\
   Education.model_validate (EducationDB.new sample_education 1)
   = {| Education.base := EducationCreate.as_read sample_education;
        Education.id := 1 |}) /\
  (exists l l',
     get_all_experiences populated_store = (Return l, populated_store) /\
     get_all_experiences (snd (add_experience sample_experience populated_store)) = (Return l', snd (add_experience sample_experience populated_store)) /\
     Permutation l' (ExperienceDB.new sample_experience 2 :: l) /\
     Experience.model_validate (ExperienceDB.new sample_experience 2)
     = {| Experience.base := sample_experience; Experience.id := 2 |}) /\
  (exists l l',
     get_all_projects populated_store = (Return l, populated_store) /\
     get_all_projects (snd (add_project sample_project populated_store)) = (Return l', snd (add_project sample_project populated_store)) /\
     Permutation l' (ProjectDB.new sample_project 2 :: l) /\
     Project.model_validate (ProjectDB.new sample_project 2)
     = {| Project.base := sample_project; Project.id := 2 |}) /\
  (exists l l',
     get_all_skill_categories empty_store = (Return l, empty_store) /\
     get_all_skill_categories (snd (add_skill_category sample_skill empty_store)) = (Return l', snd (add_skill_category sample_skill empty_store)) /\
     Permutation l' (SkillCategoryDB.new sample_skill 1 :: l) /\
     SkillCategory.model_validate (SkillCategoryDB.new sample_skill 1)
     = {| SkillCategory.base := sample_skill; SkillCategory.id := 1 |}) /\
  (exists l l',
     get_all_certifications populated_store = (Return l, populated_store) /\
     get_all_certifications (snd (add_certification sample_certification populated_store)) = (Return l', snd (add_certification sample_certification populated_store)) /\
     Permutation l' (CertificationDB.new sample_certification 2 :: l) /\
     Certification.model_validate (CertificationDB.new sample_certification 2)
     = {| Certification.base := sample_certification; Certification.id := 2 |}).
Proof.
  destruct create_then_read as (B & C & D & E & F).
  split; [apply (B sample_education empty_store); reflexivity|].
  split; [apply (C sample_experience populated_store); reflexivity|].
  split; [apply (D sample_project populated_store); reflexivity|].
  split; [apply (E sample_skill empty_store); reflexivity|].
  apply (F sample_certification populated_store); reflexivity.
Defined.

(** C5, with fields equal to the input as the specification words it,
    fails: POST /education with a [cgpa] of minus zero returns, and the
    GET that follows returns a row whose [cgpa] is plus zero. *)
Lemma create_education_loses_minus_zero :
  exists r db',
    create_education minus_zero_education empty_store = (Return r, db') /\
    get_education db' = (Return (Some r), db') /\
    EducationCreate.cgpa (Education.base (Education.model_validate r))
    <> EducationCreate.cgpa minus_zero_education.
Proof.
  exists (EducationDB.as_stored (EducationDB.new minus_zero_education 1)).
  exists (snd (create_education minus_zero_education empty_store)).
  split; [vm_compute; reflexivity|]. split; [vm_compute; reflexivity|].
  vm_compute. exact plus_zero_is_not_minus_zero.
Qed.

Lemma delete_item_lifecycle_witness :
  delete_item ExperienceDB_model 7 populated_store
  = (Raise (HTTPException 404 "Item not found"), populated_store) /\
  (let db' :=
     with_table ExperienceDB_model
       {| rows := []; next_id := 2 |} populated_store in
   delete_item ExperienceDB_model 1 populated_store
   = (Return "Item deleted successfully", db') /\
   get_items ExperienceDB_model db' = (Return [], db') /\
   stored ExperienceDB_model 1 db' = false /\
   exists before r after,
     rows (experience populated_store) = before ++ r :: after /\
     ExperienceDB.id r = 1 /\ [] = before ++ after).
Proof.
  destruct (delete_item_lifecycle _ _ ExperienceDB_model collection_experience
              7 populated_store) as (A & _).
  destruct (delete_item_lifecycle _ _ ExperienceDB_model collection_experience
              1 populated_store) as (_ & B).
  split; [apply A; reflexivity|].
  destruct (B eq_refl) as (B1 & B2 & B3 & B4).
  split; [exact B1|]. split; [exact B2|]. split; [exact B3|].
  apply B4. simpl. constructor; [intros []|constructor].
Defined.

Lemma duplicate_category_rejected_witness :
  fst (add_skill_category duplicate_skill populated_store)
  = Raise IntegrityError /\
  status_of (fst (add_skill_category duplicate_skill populated_store)) = 500 /\
  get_all_skill_categories
    (snd (add_skill_category duplicate_skill populated_store))
  = (Return (rows (skill_categories populated_store)),
     snd (add_skill_category duplicate_skill populated_store)).
Proof.
  apply (duplicate_category_rejected duplicate_skill populated_store).
  reflexivity.
Defined.

(** C7, with status 400 as the specification words it, fails: with the
    category Languages stored, a second POST /skills with that name and
    other skills raises the uncaught constraint violation, and the answer
    does not have status 400. *)
Lemma duplicate_category_not_400 :
  existsb (fun o => (SkillCategoryDB.category_name o
                     =? SkillCategoryCreate.category_name duplicate_skill)%string)
          (rows (skill_categories populated_store)) = true /\
  fst (add_skill_category duplicate_skill populated_store)
  = Raise IntegrityError /\
  status_of (fst (add_skill_category duplicate_skill populated_store)) <> 400.
Proof.
  split; [reflexivity|]. split; [reflexivity|].
  intros H. vm_compute in H. discriminate H.
Qed.

Lemma list_in_creation_order_witness :
  let ops := [ Create sample_project; Create sample_project; Delete 1;
               Create sample_project; Delete 9 ] in
  get_items ProjectDB_model (run_items ProjectDB_model ops empty_store)
  = (Return (survivors ProjectDB_model ops empty_store),
     run_items ProjectDB_model ops empty_store).
Proof.
  intros ops.
  apply (list_in_creation_order _ _ ProjectDB_model collection_projects
           ops empty_store).
  constructor.
Defined.

(** Two equal projects posted in a row are two rows with distinct
    identifiers, listed in creation order. *)
Example two_projects_listed :
  fst (get_all_projects
         (run [POST_projects sample_project; POST_projects sample_project]
              empty_store))
  = Return [ProjectDB.new sample_project 1; ProjectDB.new sample_project 2].
Proof. reflexivity. Qed.

Example survivors_of_sample_ops :
  survivors ProjectDB_model
    [ Create sample_project; Create sample_project; Delete 1;
      Create sample_project; Delete 9 ] empty_store
  = [ProjectDB.new sample_project 2; ProjectDB.new sample_project 3].
Proof. reflexivity. Qed.

(** * Further properties of the handlers *)

(** ** How each request ends *)

Lemma fst_respond {A : Type} (f : A -> Content) (h : Handler A) (db : Store) :
  fst (respond f h db)
  = match fst (h db) with
    | Return a => Return (f a)
    | Raise e => Raise e
    end.
Proof.
  unfold respond, bind, ret. destruct (h db) as [[a|x] db']; reflexivity.
Qed.

Lemma raised_respond {A : Type} (f : A -> Content) (h : Handler A) (db : Store) :
  raised (fst (respond f h db)) = raised (fst (h db)).
Proof. rewrite fst_respond. now destruct (fst (h db)). Qed.

Lemma status_raised {A : Type} (o : outcome A) :
  status_of o
  = match raised o with
    | None => 200
    | Some (HTTPException c _) => c
    | Some _ => 500
    end.
Proof. now destruct o as [a|[]]. Qed.

Lemma create_profile_raises (body : ProfileCreate.t) (db : Store) :
  raised (fst (create_profile body db))
  = if present ProfileDB_model db
    then Some (HTTPException 400 "Profile already exists. Use PUT to update.")
    else Some ProgrammingError.
Proof.
  destruct (present ProfileDB_model db) eqn:P.
  - now rewrite (create_profile_present body db P).
  - now rewrite (create_profile_absent body db P).
Qed.

Lemma create_education_raises (body : EducationCreate.t) (db : Store) :
  raised (fst (create_education body db))
  = if present EducationDB_model db
    then Some (HTTPException 400
                 "Education entry already exists. Use PUT to update.")
    else None.
Proof.
  destruct (present EducationDB_model db) eqn:P.
  - now rewrite (create_education_present body db P).
  - now rewrite (create_education_absent body db P).
Qed.

Lemma update_profile_raises (body : ProfileCreate.t) (db : Store) :
  raised (fst (update_profile body db))
  = match find_first (profile db) with
    | None =>
        Some (HTTPException 404 "Profile not found. Use POST to create one.")
    | Some r => Some ProgrammingError
    end.
Proof.
  destruct (find_first (profile db)) as [r|] eqn:F.
  - now rewrite (update_profile_loaded body db r F).
  - rewrite update_profile_absent; [reflexivity|].
    unfold present. simpl. now rewrite F.
Qed.

Lemma update_education_raises (body : EducationCreate.t) (db : Store) :
  raised (fst (update_education body db))
  = match find_first (education db) with
    | None =>
        Some (HTTPException 404 "Education not found. Use POST to create one.")
    | Some r =>
        match update EducationDB.id (fun _ => None) (EducationDB.id r)
                     (EducationDB.as_stored
                        (EducationDB.new body (EducationDB.id r)))
                     (education db) with
        | Some _ => None
        | None => Some IntegrityError
        end
    end.
Proof.
  destruct (find_first (education db)) as [r|] eqn:F.
  - rewrite (update_education_loaded body db r F).
    now destruct (update _ _ _ _ (education db)).
  - rewrite update_education_absent; [reflexivity|].
    unfold present. simpl. now rewrite F.
Qed.

Section RaiseFacts.
Context {C R : Type}.
Variable m : Model C R.
Hypothesis Hm : lawful m.

Lemma create_item_raises (c : C) (db : Store) :
  raised (fst (create_item m c db))
  = if violates (pk m) (unique_col m)
                (construct m c (next_id (table m db))) (rows (table m db))
    then Some IntegrityError
    else None.
Proof.
  destruct (violates _ _ _ _) eqn:V.
  - now rewrite (create_item_rejected m Hm c db V).
  - now rewrite (create_item_accepted m Hm c db V).
Qed.

Lemma delete_item_raises (i : Z) (db : Store) :
  raised (fst (delete_item m i db))
  = if stored m i db
    then None
    else Some (HTTPException 404 "Item not found").
Proof.
  destruct (stored m i db) eqn:S0.
  - now rewrite (delete_item_found m i db S0).
  - now rewrite (delete_item_missing m i db S0).
Qed.
End RaiseFacts.

(** The exception each request ends with, read off the store. *)
Lemma handle_raises (req : Request) (db : Store) :
  raised (fst (handle req db))
  = match req with
    | POST_profile body => raised (fst (create_profile body db))
    | PUT_profile body => raised (fst (update_profile body db))
    | POST_education body => raised (fst (create_education body db))
    | PUT_education body => raised (fst (update_education body db))
    | POST_experience body =>
        raised (fst (create_item ExperienceDB_model body db))
    | POST_projects body => raised (fst (create_item ProjectDB_model body db))
    | POST_skills body =>
        raised (fst (create_item SkillCategoryDB_model body db))
    | POST_certifications body =>
        raised (fst (create_item CertificationDB_model body db))
    | DELETE_experience i => raised (fst (delete_item ExperienceDB_model i db))
    | DELETE_projects i => raised (fst (delete_item ProjectDB_model i db))
    | DELETE_skills i => raised (fst (delete_item SkillCategoryDB_model i db))
    | DELETE_certifications i =>
        raised (fst (delete_item CertificationDB_model i db))
    | _ => None
    end.
Proof.
  destruct req; unfold handle; rewrite raised_respond; reflexivity.
Qed.

Ltac split_raises :=
  rewrite ?create_profile_raises, ?create_education_raises,
    ?update_profile_raises, ?update_education_raises,
    ?(create_item_raises ExperienceDB_model
        (collection_lawful _ collection_experience)),
    ?(create_item_raises ProjectDB_model
        (collection_lawful _ collection_projects)),
    ?(create_item_raises SkillCategoryDB_model
        (collection_lawful _ collection_skills)),
    ?(create_item_raises CertificationDB_model
        (collection_lawful _ collection_certifications)),
    ?delete_item_raises.

(** ** Reads and refused requests leave the store alone *)



(** X2. A request that is answered with an HTTPException, the 400 of a
    second singleton create or the 404 of an update or delete without
    target, has written nothing: the store is exactly as it was. *)
Theorem http_error_leaves_store :
  forall (req : Request) (db : Store) (code : Z) (detail : string),
    raised (fst (handle req db)) = Some (HTTPException code detail) ->
    snd (handle req db) = db.
Proof.
  intros req db code detail H. rewrite handle_raises in H.
  destruct req; try discriminate H; unfold handle; rewrite snd_respond.
  - destruct (present ProfileDB_model db) eqn:P.
    + now rewrite (create_profile_present body db P).
    + now rewrite (create_profile_absent body db P).
  - destruct (find_first (profile db)) as [r|] eqn:F.
    + now rewrite (update_profile_loaded body db r F).
    + rewrite update_profile_absent; [reflexivity|].
      unfold present. simpl. now rewrite F.
  - destruct (present EducationDB_model db) eqn:P.
    + now rewrite (create_education_present body db P).
    + rewrite (create_education_absent body db P) in H. discriminate H.
  - destruct (find_first (education db)) as [r|] eqn:F.
    + rewrite (update_education_loaded body db r F) in *.
      destruct (update _ _ _ _ (education db)); [discriminate H|reflexivity].
    + rewrite update_education_absent; [reflexivity|].
      unfold present. simpl. now rewrite F.
  - revert H. split_raises. destruct (violates _ _ _ _); discriminate.
  - destruct (stored ExperienceDB_model exp_id db) eqn:S0.
    + rewrite (delete_item_found _ _ _ S0) in H. discriminate H.
    + unfold delete_experience. now rewrite (delete_item_missing _ _ _ S0).
  - revert H. split_raises. destruct (violates _ _ _ _); discriminate.
  - destruct (stored ProjectDB_model proj_id db) eqn:S0.
    + rewrite (delete_item_found _ _ _ S0) in H. discriminate H.
    + unfold delete_project. now rewrite (delete_item_missing _ _ _ S0).
  - revert H. split_raises. destruct (violates _ _ _ _); discriminate.
  - destruct (stored SkillCategoryDB_model skill_id db) eqn:S0.
    + rewrite (delete_item_found _ _ _ S0) in H. discriminate H.
    + unfold delete_skill_category. now rewrite (delete_item_missing _ _ _ S0).
  - revert H. split_raises. destruct (violates _ _ _ _); discriminate.
  - destruct (stored CertificationDB_model cert_id db) eqn:S0.
    + rewrite (delete_item_found _ _ _ S0) in H. discriminate H.
    + unfold delete_certification. now rewrite (delete_item_missing _ _ _ S0).
Qed.

(** X3. No request, in any store, ends with the InvalidRequestError of a
    failed refresh: the row a handler reloads after its commit is always
    found. *)
Theorem refresh_never_fails :
  forall (req : Request) (db : Store),
    raised (fst (handle req db)) <> Some InvalidRequestError.
Proof.
  intros req db. rewrite handle_raises.
  destruct req; split_raises; try discriminate;
    repeat match goal with
           | |- context [if ?b then _ else _] => destruct b
           | |- context [match ?x with Some _ => _ | None => _ end] =>
               destruct x
           end; discriminate.
Qed.

(** ** Which requests fail, and how *)

Ltac crush_cases :=
  repeat match goal with
         | H : _ \/ _ |- _ => destruct H
         | H : exists _, _ |- _ => destruct H
         | H : _ /\ _ |- _ => destruct H
         end.

Ltac pick :=
  first [ solve [eexists; split; [reflexivity|first [reflexivity|assumption]]]
        | solve [left; pick]
        | solve [right; pick] ].

Ltac split_conditions :=
  repeat match goal with
         | |- context [match find_first ?t with Some _ => _ | None => _ end] =>
             destruct (find_first t) eqn:?
         | |- context [if ?b then _ else _] => destruct b eqn:?
         | |- context [match update ?a ?b ?c ?d ?e with
                       | Some _ => _ | None => _ end] =>
             destruct (update a b c d e) eqn:?
         end.

(** X4. The client errors of the API, for every request in every store:
    status 400 is answered exactly to a POST of a singleton that is
    present, and status 404 exactly to a PUT of a singleton that is
    absent or to a DELETE of an identifier no row of that collection
    carries. *)
Theorem client_errors :
  forall (req : Request) (db : Store),
    (status_of (fst (handle req db)) = 400 <->
       (exists b, req = POST_profile b /\
                  present ProfileDB_model db = true) \/
       (exists b, req = POST_education b /\
                  present EducationDB_model db = true)) /\
    (status_of (fst (handle req db)) = 404 <->
       (exists b, req = PUT_profile b /\
                  present ProfileDB_model db = false) \/
       (exists b, req = PUT_education b /\
                  present EducationDB_model db = false) \/
       (exists i, req = DELETE_experience i /\
                  stored ExperienceDB_model i db = false) \/
       (exists i, req = DELETE_projects i /\
                  stored ProjectDB_model i db = false) \/
       (exists i, req = DELETE_skills i /\
                  stored SkillCategoryDB_model i db = false) \/
       (exists i, req = DELETE_certifications i /\
                  stored CertificationDB_model i db = false)).
Proof.
  intros req db. rewrite status_raised, handle_raises.
  destruct req; split_raises; unfold present;
    cbn [table ProfileDB_model EducationDB_model];
    split_conditions;
    (split; split; intros H;
     [ first [discriminate H | pick]
     | crush_cases; first [reflexivity | discriminate | congruence]
     | first [discriminate H | pick]
     | crush_cases; first [reflexivity | discriminate | congruence] ]).
Qed.

(** X5. No request ever writes the profile table: after any sequence
    of requests, from any store, the table is what it was.  From a fresh
    database GET /profile therefore answers null for good: POST /profile
    fails at its commit, and so would PUT /profile if there were a row. *)
Theorem profile_table_never_written :
  (forall (reqs : list Request) (db : Store),
     profile (run reqs db) = profile db) /\
  (forall (reqs : list Request),
     handle GET_profile (run reqs empty_store)
     = (Return JNull, run reqs empty_store)).
Proof.
  assert (G : forall reqs db, profile (run reqs db) = profile db).
  { intros reqs. induction reqs as [|req reqs IH]; intros db; [reflexivity|].
    rewrite run_cons, IH.
    destruct req; unfold handle; rewrite snd_respond; unfold_routes;
      route_stores; try (destruct (find_by_id _ _ _)); try reflexivity.
    - destruct (present ProfileDB_model db) eqn:P.
      + now rewrite (create_profile_present body db P).
      + now rewrite (create_profile_absent body db P).
    - destruct (find_first (profile db)) as [r|] eqn:F.
      + now rewrite (update_profile_loaded body db r F).
      + rewrite update_profile_absent; [reflexivity|].
        unfold present. simpl. now rewrite F.
    - destruct (present EducationDB_model db) eqn:P.
      + now rewrite (create_education_present body db P).
      + now rewrite (create_education_absent body db P).
    - destruct (find_first (education db)) as [r|] eqn:F.
      + rewrite (update_education_loaded body db r F).
        now destruct (update _ _ _ _ (education db)).
      + rewrite update_education_absent; [reflexivity|].
        unfold present. simpl. now rewrite F. }
  split; [exact G|].
  intros reqs. unfold handle, respond, bind, get_profile, query_first, ret.
  simpl. now rewrite (G reqs empty_store).
Qed.

(** ** Deleting and recreating *)

(** X7. On each collection, once a DELETE has succeeded the same DELETE
    again is answered with status 404 and changes nothing. *)
Theorem delete_twice :
  forall (C R : Type) (m : Model C R),
    collection m ->
    forall (i : Z) (db : Store),
      stored m i db = true ->
      let db' := snd (delete_item m i db) in
      fst (delete_item m i db) = Return "Item deleted successfully" /\
      delete_item m i db' = (Raise (HTTPException 404 "Item not found"), db').
Proof.
  intros C R m Hc i db S0 db'. subst db'.
  destruct (collection_lawful m Hc) as (Hget & _ & _).
  rewrite (delete_item_found m i db S0). split; [reflexivity|].
  cbn [snd]. apply delete_item_missing.
  unfold stored. rewrite Hget. simpl. apply not_stored_after_filter.
Qed.

Lemma filter_drops_appended {R : Type} (key : R -> Z) (r : R) (l : list R) :
  (forall o, In o l -> (key o =? key r)%Z = false) ->
  filter (fun o => negb (key o =? key r)%Z) (l ++ [r]) = l.
Proof.
  intros N. rewrite filter_app. simpl. rewrite Z.eqb_refl. simpl.
  rewrite app_nil_r. induction l as [|x l IH]; simpl; [reflexivity|].
  rewrite (N x (or_introl eq_refl)). simpl. f_equal.
  apply IH. intros o Io. apply N. now right.
Qed.

(** X8. On each collection, a create that succeeded is undone by the
    DELETE of the identifier it answered with: that DELETE succeeds and
    the list is then the list from before the create.  (The identifier
    itself is spent: the sequence has moved on.) *)
Theorem create_then_delete :
  forall (C R : Type) (m : Model C R),
    collection m ->
    forall (c : C) (db db1 : Store) (r : R),
      create_item m c db = (Return r, db1) ->
      exists db2,
        delete_item m (pk m r) db1 = (Return "Item deleted successfully", db2) /\
        get_items m db2 = (Return (rows (table m db)), db2) /\
        next_id (table m db2) = next_id (table m db) + 1.
Proof.
  intros C R m Hc c db db1 r E.
  pose proof (collection_lawful m Hc) as Hm.
  destruct (create_item_returned m Hm c db db1 r E) as (_ & V & ->).
  destruct Hm as (Hget & _ & _).
  eexists. split.
  - apply delete_item_found. unfold stored. rewrite Hget. simpl.
    rewrite existsb_app. simpl. rewrite Z.eqb_refl. apply orb_true_r.
  - rewrite !Hget. simpl.
    rewrite (filter_drops_appended (pk m) r _
               (violates_false_key (pk m) (unique_col m) r _ V)).
    unfold get_items, query_all, find_all. rewrite Hget. simpl. split; reflexivity.
Qed.

(** ** Updating a singleton *)

(** X9. The last update of the education entry wins: with the row
    stored, a PUT /education that returns after an earlier PUT answers and
    leaves the store exactly as that PUT alone does, and the row stored
    then has the fields of its body as the store gives them back, with
    nothing left of the earlier body. *)
Theorem last_update_wins :
  forall (e1 e2 : EducationCreate.t) (db : Store) (r o : EducationDB.t)
         (db' : Store),
    rows (education db) = [r] ->
    update_education e2 (snd (update_education e1 db)) = (Return o, db') ->
    update_education e2 db = (Return o, db') /\
    rows (education db') = [o] /\
    Education.base (Education.model_validate o) = EducationCreate.as_read e2.
Proof.
  intros e1 e2 db r o db' Hr E.
  assert (F : find_first (education db) = Some r)
    by (unfold find_first; now rewrite Hr).
  rewrite (update_education_loaded e1 db r F) in E.
  rewrite (update_alone EducationDB.id _ _ r (education db) Hr) in E.
  cbn [snd] in E.
  rewrite (update_education_loaded e2 _
             (EducationDB.as_stored (EducationDB.new e1 (EducationDB.id r))))
    in E by reflexivity.
  rewrite (update_alone EducationDB.id _ _
             (EducationDB.as_stored (EducationDB.new e1 (EducationDB.id r))))
    in E by reflexivity.
  rewrite (update_education_loaded e2 db r F).
  rewrite (update_alone EducationDB.id _ _ r (education db) Hr).
  inversion E; subst o db'; clear E.
  split; [destruct db; reflexivity|].
  split; [reflexivity|]. now rewrite education_of_new.
Qed.

(** ** Resources do not interfere *)

Lemma create_profile_store (body : ProfileCreate.t) (db : Store) :
  exists t, snd (create_profile body db) = with_table ProfileDB_model t db.
Proof.
  exists (profile db). destruct (present ProfileDB_model db) eqn:P.
  - rewrite (create_profile_present body db P). now destruct db.
  - rewrite (create_profile_absent body db P). now destruct db.
Qed.

Lemma update_profile_store (body : ProfileCreate.t) (db : Store) :
  exists t, snd (update_profile body db) = with_table ProfileDB_model t db.
Proof.
  exists (profile db). destruct (find_first (profile db)) as [r|] eqn:F.
  - rewrite (update_profile_loaded body db r F). now destruct db.
  - rewrite update_profile_absent; [now destruct db|].
    unfold present. simpl. now rewrite F.
Qed.

Lemma create_education_store (body : EducationCreate.t) (db : Store) :
  exists t, snd (create_education body db) = with_table EducationDB_model t db.
Proof.
  destruct (present EducationDB_model db) eqn:P.
  - rewrite (create_education_present body db P). exists (education db).
    now destruct db.
  - rewrite (create_education_absent body db P). eexists. reflexivity.
Qed.

Lemma update_education_store (body : EducationCreate.t) (db : Store) :
  exists t, snd (update_education body db) = with_table EducationDB_model t db.
Proof.
  destruct (find_first (education db)) as [r|] eqn:F.
  - rewrite (update_education_loaded body db r F).
    destruct (update _ _ _ _ (education db)) as [t|].
    + exists t. reflexivity.
    + exists (education db). now destruct db.
  - rewrite update_education_absent.
    + exists (education db). now destruct db.
    + unfold present. simpl. now rewrite F.
Qed.

(** X10. A request touches no table but that of its own resource: the
    tables of the five other resources are, after the request, exactly
    what they were, rows and identifier sequence alike. *)
Theorem resources_independent :
  forall (req : Request) (db : Store) (k : Resource),
    resource_of req <> Some k ->
    same_table k (snd (handle req db)) db.
Proof.
  intros req db k H.
  destruct req; destruct k;
    try (exfalso; apply H; reflexivity);
    unfold same_table, handle; rewrite snd_respond; unfold_routes;
    route_stores;
    try (destruct (find_by_id _ _ _)); try reflexivity.
  all: try (destruct (create_profile_store body db) as [t ->]; reflexivity).
  all: try (destruct (update_profile_store body db) as [t ->]; reflexivity).
  all: try (destruct (create_education_store body db) as [t ->]; reflexivity).
  all: destruct (update_education_store body db) as [t ->]; reflexivity.
Qed.

(** ** The singleton keeps its identifier *)

Lemma education_id_step (req : Request) (db : Store) (o : EducationDB.t) :
  rows (education db) = [o] ->
  exists o', rows (education (snd (handle req db))) = [o'] /\
             EducationDB.id o' = EducationDB.id o.
Proof.
  intros Hr.
  assert (F : find_first (education db) = Some o)
    by (unfold find_first; now rewrite Hr).
  assert (P : present EducationDB_model db = true)
    by (unfold present; simpl; now rewrite F).
  destruct req; unfold handle; rewrite snd_respond; unfold_routes;
    route_stores;
    try (destruct (find_by_id _ _ _)); try (exists o; split; [exact Hr|reflexivity]).
  - destruct (create_profile_store body db) as [t ->]. now exists o.
  - destruct (update_profile_store body db) as [t ->]. now exists o.
  - rewrite (create_education_present body db P). now exists o.
  - rewrite (update_education_loaded body db o F).
    rewrite (update_alone EducationDB.id _ _ o (education db) Hr).
    eexists. split; reflexivity.
Qed.

(** X12. The education entry keeps, for life, the identifier its create
    answered with: after any further sequence of requests GET /education
    returns a row with that identifier, whatever was updated in between. *)
Theorem singleton_identifier_is_stable :
  forall (e : EducationCreate.t) (db : Store) (reqs : list Request)
         (r : EducationDB.t) (db' : Store),
    create_education e db = (Return r, db') ->
    exists o,
      get_education (run reqs db') = (Return (Some o), run reqs db') /\
      EducationDB.id o = EducationDB.id r.
Proof.
  intros e db reqs r db' E.
  assert (I : exists o, rows (education db') = [o] /\
                        EducationDB.id o = EducationDB.id r).
  { destruct (present EducationDB_model db) eqn:P.
    - rewrite (create_education_present e db P) in E. discriminate.
    - rewrite (create_education_absent e db P) in E.
      inversion E; subst. eexists. split; reflexivity. }
  clear E. revert db' I.
  induction reqs as [|req reqs IH]; intros db' (o & Hr & Ho).
  - exists o. split; [|exact Ho].
    unfold get_education, query_first, find_first. simpl. now rewrite Hr.
  - rewrite run_cons. apply IH.
    destruct (education_id_step req db' o Hr) as (o' & Hr' & Ho').
    exists o'. split; [exact Hr'|congruence].
Qed.

(** X13. Once POST /education has succeeded, every later POST
    /education, with any body and after any requests in between, is
    answered with status 400 and writes nothing. *)
Theorem second_create_always_refused :
  forall (e e' : EducationCreate.t) (db : Store) (reqs : list Request)
         (r : EducationDB.t) (db' : Store),
    create_education e db = (Return r, db') ->
    status_of (fst (handle (POST_education e') (run reqs db'))) = 400 /\
    snd (handle (POST_education e') (run reqs db')) = run reqs db'.
Proof.
  intros e e' db reqs r db' E.
  assert (P : present EducationDB_model (run reqs db') = true).
  { apply present_length. simpl.
    destruct (run_never_shrinks reqs db') as [_ M].
    enough (H : (length (rows (education db')) = 1)%nat)
      by (rewrite <- H; exact M).
    destruct (present EducationDB_model db) eqn:P.
    - rewrite (create_education_present e db P) in E. discriminate.
    - rewrite (create_education_absent e db P) in E.
      inversion E; subst. reflexivity. }
  unfold handle. rewrite fst_respond, snd_respond.
  now rewrite (create_education_present e' _ P).
Qed.

(** ** Category names stay unique *)

Lemma NoDup_map_filter {A B : Type} (g : A -> B) (f : A -> bool) (l : list A) :
  NoDup (map g l) -> NoDup (map g (filter f l)).
Proof.
  induction l as [|x l IH]; simpl; intros N; [constructor|].
  inversion N as [|k ks Hx N']; subst.
  destruct (f x); simpl; [|now apply IH].
  constructor; [|now apply IH].
  intros I. apply Hx. apply in_map_iff in I.
  destruct I as (y & Ey & Iy). apply filter_In in Iy.
  apply in_map_iff. exists y. tauto.
Qed.

Lemma skill_names_step (op : item_op SkillCategoryCreate.t) (db : Store) :
  NoDup (map SkillCategoryDB.category_name (rows (skill_categories db))) ->
  NoDup (map SkillCategoryDB.category_name
             (rows (skill_categories (item_step SkillCategoryDB_model db op)))).
Proof.
  intros N. pose proof (collection_lawful _ collection_skills) as Hm.
  destruct op as [c|i]; simpl.
  - destruct (violates (pk SkillCategoryDB_model)
                (unique_col SkillCategoryDB_model)
                (construct SkillCategoryDB_model c
                   (next_id (table SkillCategoryDB_model db)))
                (rows (table SkillCategoryDB_model db))) eqn:V.
    + rewrite (create_item_rejected SkillCategoryDB_model Hm c db V). exact N.
    + rewrite (create_item_accepted SkillCategoryDB_model Hm c db V). simpl.
      rewrite map_app. simpl.
      apply NoDup_app; [exact N|repeat constructor; intros []|].
      intros k Ik [Ek|[]]. subst k.
      apply in_map_iff in Ik. destruct Ik as (o & Eo & Io).
      unfold violates in V. simpl in V.
      assert (X : existsb
                    (fun o0 : SkillCategoryDB.t =>
                       (SkillCategoryDB.id o0 =? next_id (skill_categories db))%Z
                       || (SkillCategoryDB.category_name o0
                           =? SkillCategoryCreate.category_name c)%string)
                    (rows (skill_categories db)) = true).
      { apply existsb_exists. exists o. split; [exact Io|].
        rewrite Eo. simpl. rewrite String.eqb_refl. apply orb_true_r. }
      congruence.
  - destruct (stored SkillCategoryDB_model i db) eqn:S0.
    + rewrite (delete_item_found SkillCategoryDB_model i db S0). simpl.
      now apply NoDup_map_filter.
    + now rewrite (delete_item_missing SkillCategoryDB_model i db S0).
Qed.

(** X14. In every store reached from a fresh database, no two of the
    skill categories that GET /skills lists have the same name. *)
Theorem category_names_stay_unique :
  forall (reqs : list Request),
    let db := run reqs empty_store in
    exists l,
      get_all_skill_categories db = (Return l, db) /\
      NoDup (map SkillCategoryDB.category_name l).
Proof.
  intros reqs db. exists (rows (skill_categories db)).
  split; [reflexivity|]. subst db.
  assert (G : forall s,
             NoDup (map SkillCategoryDB.category_name
                        (rows (skill_categories s))) ->
             NoDup (map SkillCategoryDB.category_name
                        (rows (skill_categories (run reqs s))))).
  { induction reqs as [|req reqs IH]; intros s N; [exact N|].
    rewrite run_cons. apply IH.
    destruct (handle_on_collection SkillCategoryDB_model collection_skills
                req s) as [E|[op E]].
    - simpl in E. now rewrite E.
    - rewrite E. now apply skill_names_step. }
  apply G. constructor.
Qed.

(** ** The further properties at work on sample data *)


Lemma http_error_leaves_store_witness :
  snd (handle (POST_education other_education) populated_store)
  = populated_store /\
  snd (handle (DELETE_projects 9) populated_store) = populated_store.
Proof.
  split.
  - apply (http_error_leaves_store (POST_education other_education)
             populated_store 400
             "Education entry already exists. Use PUT to update.").
    reflexivity.
  - apply (http_error_leaves_store (DELETE_projects 9) populated_store
             404 "Item not found").
    reflexivity.
Defined.

Lemma refresh_never_fails_witness :
  raised (fst (handle (PUT_profile other_profile) populated_store))
  <> Some InvalidRequestError.
Proof.
  apply (refresh_never_fails (PUT_profile other_profile) populated_store).
Defined.

Lemma client_errors_witness :
  status_of (fst (handle (POST_education other_education) populated_store))
  = 400 /\
  status_of (fst (handle (DELETE_skills 5) populated_store)) = 404 /\
  ((exists b, PUT_profile other_profile = PUT_profile b /\
              present ProfileDB_model empty_store = false) \/
   (exists b, PUT_profile other_profile = PUT_education b /\
              present EducationDB_model empty_store = false) \/
   (exists i, PUT_profile other_profile = DELETE_experience i /\
              stored ExperienceDB_model i empty_store = false) \/
   (exists i, PUT_profile other_profile = DELETE_projects i /\
              stored ProjectDB_model i empty_store = false) \/
   (exists i, PUT_profile other_profile = DELETE_skills i /\
              stored SkillCategoryDB_model i empty_store = false) \/
   (exists i, PUT_profile other_profile = DELETE_certifications i /\
              stored CertificationDB_model i empty_store = false)).
Proof.
  split; [|split].
  - apply (proj2 (proj1 (client_errors (POST_education other_education)
                           populated_store))).
    right. exists other_education. split; reflexivity.
  - apply (proj2 (proj2 (client_errors (DELETE_skills 5) populated_store))).
    do 4 right. left. exists 5. split; reflexivity.
  - apply (proj1 (proj2 (client_errors (PUT_profile other_profile)
                           empty_store))).
    reflexivity.
Defined.

Lemma delete_twice_witness :
  let db' := snd (delete_item ProjectDB_model 1 populated_store) in
  fst (delete_item ProjectDB_model 1 populated_store)
  = Return "Item deleted successfully" /\
  delete_item ProjectDB_model 1 db'
  = (Raise (HTTPException 404 "Item not found"), db').
Proof.
  apply (delete_twice _ _ ProjectDB_model collection_projects 1 populated_store).
  reflexivity.
Defined.

Lemma create_then_delete_witness :
  exists db2,
    delete_item ExperienceDB_model 2
      (snd (create_item ExperienceDB_model sample_experience populated_store))
    = (Return "Item deleted successfully", db2) /\
    get_items ExperienceDB_model db2
    = (Return (rows (experience populated_store)), db2) /\
    next_id (experience db2) = next_id (experience populated_store) + 1.
Proof.
  apply (create_then_delete _ _ ExperienceDB_model collection_experience
           sample_experience populated_store
           (snd (create_item ExperienceDB_model sample_experience
                   populated_store))
           (ExperienceDB.new sample_experience 2)).
  reflexivity.
Defined.

Lemma last_update_wins_witness :
  let o := EducationDB.new other_education 1 in
  let db' := snd (update_education other_education populated_store) in
  update_education other_education populated_store = (Return o, db') /\
  rows (education db') = [o] /\
  Education.base (Education.model_validate o)
  = EducationCreate.as_read other_education.
Proof.
  intros o db'.
  apply (last_update_wins sample_education other_education populated_store
           (EducationDB.new sample_education 1) o db'); reflexivity.
Defined.

Lemma resources_independent_witness :
  same_table Skills
    (snd (handle (PUT_profile other_profile) populated_store))
    populated_store /\
  same_table Profiles
    (snd (handle (DELETE_experience 1) populated_store))
    populated_store.
Proof.
  split.
  - apply (resources_independent (PUT_profile other_profile) populated_store
             Skills). discriminate.
  - apply (resources_independent (DELETE_experience 1) populated_store
             Profiles). discriminate.
Defined.

Lemma singleton_identifier_is_stable_witness :
  let later := [ PUT_education other_education; POST_education other_education;
                 PUT_profile other_profile; PUT_education sample_education ] in
  exists o,
    get_education
      (run later (snd (create_education sample_education empty_store)))
    = (Return (Some o),
       run later (snd (create_education sample_education empty_store))) /\
    EducationDB.id o = 1.
Proof.
  intros later.
  apply (singleton_identifier_is_stable sample_education empty_store later
           (EducationDB.new sample_education 1)).
  reflexivity.
Defined.

Lemma second_create_always_refused_witness :
  let later := [ PUT_education other_education; DELETE_skills 1;
                 POST_experience sample_experience ] in
  status_of
    (fst (handle (POST_education other_education)
            (run later (snd (create_education sample_education empty_store)))))
  = 400 /\
  snd (handle (POST_education other_education)
         (run later (snd (create_education sample_education empty_store))))
  = run later (snd (create_education sample_education empty_store)).
Proof.
  intros later.
  apply (second_create_always_refused sample_education other_education
           empty_store later (EducationDB.new sample_education 1)).
  reflexivity.
Defined.
